(** * Code block formatting instructions

    A shallow embedding of [bot/cogs/codeblock/instructions.py] and the
    properties of its dispatcher and message composition.

    Python [str] values are modelled as [string]; [Optional[str]] as
    [option string].  The module-level logger [log] is the only mutable
    object the module touches: it is modelled as the list of records emitted
    so far, threaded through every function.  Operations that can raise in
    Python (indexing) raise in the model too. *)

From Stdlib Require Import String Ascii List Bool Arith Lia.
Import ListNotations.
Open Scope string_scope.

(** ** Python built-ins used by the module *)

Module Py.

(** The one-character string ["\n"]. *)
Definition nl : string := String (ascii_of_nat 10) EmptyString.

(** Truth value of a [str]: empty strings are falsy. *)
Definition truthy (s : string) : bool :=
  match s with
  | EmptyString => false
  | String _ _ => true
  end.

(** Truth value of an [Optional[str]]: [None] and [""] are falsy. *)
Definition truthy_opt (o : option string) : bool :=
  match o with
  | None => false
  | Some s => truthy s
  end.

(** Truth value of a sequence: empty sequences are falsy. *)
Definition truthy_list {A : Type} (xs : list A) : bool :=
  match xs with
  | [] => false
  | _ :: _ => true
  end.

(** [str.lower] on ASCII text: [A-Z] are mapped to [a-z], every other
    character is kept. *)
Definition lower_char (c : ascii) : ascii :=
  let n := nat_of_ascii c in
  if Nat.leb 65 n && Nat.leb n 90 then ascii_of_nat (n + 32) else c.

Fixpoint lower (s : string) : string :=
  match s with
  | EmptyString => EmptyString
  | String c s' => String (lower_char c) (lower s')
  end.

(** [s * n]. *)
Fixpoint repeat (s : string) (n : nat) : string :=
  match n with
  | O => EmptyString
  | S n' => s ++ repeat s n'
  end.

(** [x in xs] for a tuple of strings. *)
Fixpoint contains (xs : list string) (x : string) : bool :=
  match xs with
  | [] => false
  | y :: ys => (x =? y) || contains ys x
  end.

(** [sep.join(xs)]. *)
Fixpoint join (sep : string) (xs : list string) : string :=
  match xs with
  | [] => EmptyString
  | [x] => x
  | x :: xs' => x ++ sep ++ join sep xs'
  end.

(** [s[n:]]. *)
Fixpoint slice_from (n : nat) (s : string) : string :=
  match n, s with
  | O, _ => s
  | S _, EmptyString => EmptyString
  | S n', String _ s' => slice_from n' s'
  end.

(** [s.startswith(p)]. *)
Fixpoint startswith (p s : string) : bool :=
  match p with
  | EmptyString => true
  | String a p' =>
      match s with
      | EmptyString => false
      | String b s' => Ascii.eqb a b && startswith p' s'
      end
  end.

(** [s.replace(old, new, 1)]: only the leftmost occurrence is replaced. *)
Fixpoint replace_first (old new s : string) : string :=
  if startswith old s then new ++ slice_from (String.length old) s
  else match s with
       | EmptyString => EmptyString
       | String c s' => String c (replace_first old new s')
       end.

(** [s.split("\n")[0]]: the text before the first line break. *)
Fixpoint first_line (s : string) : string :=
  match s with
  | EmptyString => EmptyString
  | String c s' =>
      if Ascii.eqb c (ascii_of_nat 10) then EmptyString
      else String c (first_line s')
  end.

(** [s[0].lower() + s[1:]] for a non-empty [s]; [""] is kept. *)
Definition lower_first (s : string) : string :=
  match s with
  | EmptyString => EmptyString
  | String c s' => String (lower_char c) s'
  end.

(** [sub in s] for strings. *)
Definition Contains (sub s : string) : Prop :=
  exists pre post, s = pre ++ sub ++ post.

(** No line break occurs in [s]. *)
Fixpoint single_line (s : string) : bool :=
  match s with
  | EmptyString => true
  | String c s' => negb (Ascii.eqb c (ascii_of_nat 10)) && single_line s'
  end.

End Py.

(** ** Effects: the logger and exceptions *)

Inductive exn : Set :=
| IndexError.

Inductive outcome (A : Type) : Type :=
| Return (a : A)
| Raise (e : exn).
Arguments Return {A} a.
Arguments Raise {A} e.

(** The records written to [log] so far. *)
Definition Log : Type := list string.

Definition M (A : Type) : Type := Log -> outcome A * Log.

Definition ret {A : Type} (a : A) : M A := fun l => (Return a, l).

Definition raise {A : Type} (e : exn) : M A := fun l => (Raise e, l).

Definition bind {A B : Type} (m : M A) (k : A -> M B) : M B :=
  fun l =>
    match m l with
    | (Return a, l') => k a l'
    | (Raise e, l') => (Raise e, l')
    end.

(** [log.trace(msg)]. *)
Definition trace (msg : string) : M unit := fun l => (Return tt, (l ++ [msg])%list).

Notation "x <- m ;; k" := (bind m (fun x => k))
  (at level 61, m at next level, right associativity).
Notation "m ;;; k" := (bind m (fun _ => k))
  (at level 61, right associativity).

(** [s[0]]: raises [IndexError] on the empty string. *)
Definition str_getitem0 (s : string) : M string :=
  match s with
  | EmptyString => raise IndexError
  | String c _ => ret (String c EmptyString)
  end.

(** [xs[0]]: raises [IndexError] on the empty list. *)
Definition list_getitem0 {A : Type} (xs : list A) : M A :=
  match xs with
  | [] => raise IndexError
  | x :: _ => ret x
  end.

(** [m] returns [a], without raising, whatever the logger holds. *)
Definition returns {A : Type} (m : M A) (a : A) : Prop :=
  forall l, fst (m l) = Return a.

(** ** The [parsing] module, as far as [instructions] uses it *)

Module CodeBlock.
(** [parsing.CodeBlock]. *)
Record t : Set := mk {
  content : string;
  language : string;
  tick : string
}.
End CodeBlock.

Module BadLanguage.
(** The record returned by [parsing.parse_bad_language]. *)
Record t : Set := mk {
  language : string;
  leading_spaces : bool;
  terminal_newline : bool
}.
End BadLanguage.

(** Modelled from the spec: [parsing.BACKTICK], the canonical fence
    character; [parsing] is not part of the sources at hand. *)
Definition BACKTICK : string := "`".

(** The remaining names [instructions] imports from [parsing].  Their
    definitions are not at hand, so they are an interface: a tuple of
    language codes and three pure functions. *)
Class Parsing : Type := {
  PY_LANG_CODES : list string;
  find_code_blocks : string -> option (list CodeBlock.t);
  is_repl_code : string -> bool;
  is_python_code : string -> bool;
  parse_bad_language : string -> option BadLanguage.t
}.

(** ** The [instructions] module *)

Section Instructions.

Context {parsing : Parsing}.

Import Py.

(** [_EXAMPLE_PY.format(lang=lang)]. *)
Definition _EXAMPLE_PY (lang : string) : string :=
  lang ++ nl ++ "print('Hello, world!')".

(** [_EXAMPLE_CODE_BLOCKS.format(content=content)]. *)
Definition _EXAMPLE_CODE_BLOCKS (content : string) : string :=
  "\`\`\`" ++ content ++ nl ++ "\`\`\`" ++ nl ++ nl
  ++ "**This will result in the following:**" ++ nl
  ++ "```" ++ content ++ "```".

Definition _get_example (language : string) : M string :=
  content <-
    (if contains PY_LANG_CODES (lower language) then
       trace ("Code block has a Python language specifier `" ++ language ++ "`.") ;;;
       ret (_EXAMPLE_PY language)
     else if truthy language then
       trace ("Code block has a foreign language specifier `" ++ language ++ "`.") ;;;
       ret (language ++ nl ++ "...")
     else
       trace "Code block has no language specifier." ;;;
       ret (nl ++ "Hello, world!")) ;;
  ret (_EXAMPLE_CODE_BLOCKS content).

(** The value [_get_example] computes, apart from its log records. *)
Definition example_of (language : string) : string :=
  _EXAMPLE_CODE_BLOCKS
    (if contains PY_LANG_CODES (lower language) then _EXAMPLE_PY language
     else if truthy language then language ++ nl ++ "..."
     else nl ++ "Hello, world!").

(** The f-string [_get_no_ticks_message] returns. *)
Definition no_ticks_text (example_blocks : string) : string :=
  "It looks like you're trying to paste code into this channel." ++ nl ++ nl
  ++ "Discord has support for Markdown, which allows you to post code with full "
  ++ "syntax highlighting. Please use these whenever you paste code, as this "
  ++ "helps improve the legibility and makes it easier for us to help you." ++ nl ++ nl
  ++ "**To do this, use the following method:**" ++ nl ++ example_blocks.

Definition _get_no_ticks_message (content : string) : M (option string) :=
  trace "Creating instructions for a missing code block." ;;;
  if is_repl_code content || is_python_code content then
    example_blocks <- _get_example "python" ;;
    ret (Some (no_ticks_text example_blocks))
  else
    trace "Aborting missing code block instructions: content is not Python code." ;;;
    ret None.

(** The two sentences [_get_bad_lang_message] appends to [lines]. *)
Definition no_spaces_line (language : string) : string :=
  "Make sure there are no spaces between the back ticks and `" ++ language ++ "`.".

Definition new_line_line (language : string) : string :=
  "Make sure you put your code on a new line following `" ++ language ++ "`. "
  ++ "There must not be any spaces after `" ++ language ++ "`.".

(** The f-string [_get_bad_lang_message] returns. *)
Definition bad_lang_text (lines example_blocks : string) : string :=
  "It looks like you incorrectly specified a language for your code block."
  ++ nl ++ nl ++ lines
  ++ nl ++ nl ++ "**Here is an example of how it should look:**" ++ nl
  ++ example_blocks.

Definition _get_bad_lang_message (content : string) : M (option string) :=
  trace "Creating instructions for a poorly specified language." ;;;
  match parse_bad_language content with
  | None =>
      trace "Aborting bad language instructions: language specified isn't Python." ;;;
      ret None
  | Some info =>
      let lines : list string := [] in
      let language := BadLanguage.language info in
      lines <-
        (if BadLanguage.leading_spaces info then
           trace "Language specifier was preceded by a space." ;;;
           ret (List.app lines [no_spaces_line language])
         else ret lines) ;;
      lines <-
        (if negb (BadLanguage.terminal_newline info) then
           trace "Language specifier was not followed by a newline." ;;;
           ret (List.app lines [new_line_line language])
         else ret lines) ;;
      if truthy_list lines then
        let lines := join " " lines in
        example_blocks <- _get_example language ;;
        ret (Some (bad_lang_text lines example_blocks))
      else
        trace "Nothing wrong with the language specifier; no instructions to return." ;;;
        ret None
  end.

(** The f-string [_get_no_lang_message] returns. *)
Definition no_lang_text (example_blocks : string) : string :=
  "It looks like you pasted Python code without syntax highlighting." ++ nl ++ nl
  ++ "Please use syntax highlighting to improve the legibility of your code and make "
  ++ "it easier for us to help you." ++ nl ++ nl
  ++ "**To do this, use the following method:**" ++ nl ++ example_blocks.

Definition _get_no_lang_message (content : string) : M (option string) :=
  trace "Creating instructions for a missing language." ;;;
  if is_repl_code content || is_python_code content then
    example_blocks <- _get_example "python" ;;
    ret (Some (no_lang_text example_blocks))
  else
    trace "Aborting missing language instructions: content is not Python code." ;;;
    ret None.

(** The text [_get_bad_ticks_message] starts [instructions] with. *)
Definition bad_ticks_instructions (code_block : CodeBlock.t) : string :=
  let valid_ticks := repeat ("\" ++ BACKTICK) 3 in
  "It looks like you are trying to paste code into this channel." ++ nl ++ nl
  ++ "You seem to be using the wrong symbols to indicate where the code block should start. "
  ++ "The correct symbols would be " ++ valid_ticks
  ++ ", not `" ++ repeat (CodeBlock.tick code_block) 3 ++ "`.".

(** The header [_get_bad_ticks_message] puts before its own example. *)
Definition example_header : string :=
  nl ++ nl ++ "**Here is an example of how it should look:**" ++ nl.

Definition _get_bad_ticks_message (code_block : CodeBlock.t) : M (option string) :=
  trace "Creating instructions for incorrect code block ticks." ;;;
  let instructions := bad_ticks_instructions code_block in
  trace "Check if the bad ticks code block also has issues with the language specifier." ;;;
  addition_msg <- _get_bad_lang_message (CodeBlock.content code_block) ;;
  addition_msg <-
    (if negb (truthy_opt addition_msg) && negb (truthy (CodeBlock.language code_block)) then
       _get_no_lang_message (CodeBlock.content code_block)
     else ret addition_msg) ;;
  let no_issue : M (option string) :=
    trace "No issues with the language specifier found." ;;;
    example_blocks <- _get_example (CodeBlock.language code_block) ;;
    ret (Some (instructions ++ example_header ++ example_blocks)) in
  match addition_msg with
  | Some addition_msg =>
      if truthy addition_msg then
        trace "Language specifier issue found; appending additional instructions." ;;;
        let addition_msg := replace_first (nl ++ nl) " " addition_msg in
        first <- str_getitem0 addition_msg ;;
        ret (Some (instructions ++ nl ++ nl ++ "Furthermore, "
                   ++ lower first ++ slice_from 1 addition_msg))
      else no_issue
  | None => no_issue
  end.

Definition get_instructions (content : string) : M (option string) :=
  trace "Getting formatting instructions." ;;;
  match find_code_blocks content with
  | None =>
      trace "At least one valid code block found; no instructions to return." ;;;
      ret None
  | Some blocks =>
      if negb (truthy_list blocks) then
        trace "No code blocks were found in message." ;;;
        _get_no_ticks_message content
      else
        trace "Searching results for a code block with invalid ticks." ;;;
        match find (fun block => negb (CodeBlock.tick block =? BACKTICK)) blocks with
        | Some block =>
            trace "A code block exists but has invalid ticks." ;;;
            _get_bad_ticks_message block
        | None =>
            trace "A code block exists but is missing a language." ;;;
            block <- list_getitem0 blocks ;;
            description <- _get_bad_lang_message (CodeBlock.content block) ;;
            description <-
              (if negb (truthy_opt description) then
                 _get_no_lang_message (CodeBlock.content block)
               else ret description) ;;
            ret description
        end
  end.

End Instructions.

(** ** Values

    What the advisors compute, written without the logger; the lemmas
    below show each advisor returns its value. *)

Section Values.

Context {parsing : Parsing}.

Import Py.

(** The sentences [_get_bad_lang_message] collects for [info]. *)
Definition bad_lang_lines (info : BadLanguage.t) : list string :=
  List.app
    (if BadLanguage.leading_spaces info
     then [no_spaces_line (BadLanguage.language info)] else [])
    (if BadLanguage.terminal_newline info
     then [] else [new_line_line (BadLanguage.language info)]).

Definition bad_lang_value (content : string) : option string :=
  match parse_bad_language content with
  | None => None
  | Some info =>
      if truthy_list (bad_lang_lines info)
      then Some (bad_lang_text (join " " (bad_lang_lines info))
                   (example_of (BadLanguage.language info)))
      else None
  end.

Definition no_lang_value (content : string) : option string :=
  if is_repl_code content || is_python_code content
  then Some (no_lang_text (example_of "python")) else None.

Definition no_ticks_value (content : string) : option string :=
  if is_repl_code content || is_python_code content
  then Some (no_ticks_text (example_of "python")) else None.

(** The secondary issue [_get_bad_ticks_message] reports, if any. *)
Definition addition_of (code_block : CodeBlock.t) : option string :=
  match bad_lang_value (CodeBlock.content code_block) with
  | Some msg => Some msg
  | None =>
      if truthy (CodeBlock.language code_block) then None
      else no_lang_value (CodeBlock.content code_block)
  end.

(** A message turned into the clause that follows ["Furthermore, "]. *)
Definition subordinate (addition_msg : string) : string :=
  lower_first (replace_first (nl ++ nl) " " addition_msg).

Definition bad_ticks_value (code_block : CodeBlock.t) : string :=
  match addition_of code_block with
  | Some msg =>
      bad_ticks_instructions code_block ++ nl ++ nl ++ "Furthermore, " ++ subordinate msg
  | None =>
      bad_ticks_instructions code_block ++ example_header
      ++ example_of (CodeBlock.language code_block)
  end.

(** The header of the example section in the missing-fence and
    missing-language messages. *)
Definition method_header : string :=
  nl ++ nl ++ "**To do this, use the following method:**" ++ nl.

(** The prose of a malformed-language message once it trails
    ["Furthermore, "]. *)
Definition furthermore_bad_lang (lines : string) : string :=
  nl ++ nl ++ "Furthermore, it looks like you incorrectly specified a language "
  ++ "for your code block. " ++ lines.

(** The prose of the missing-language message once it trails
    ["Furthermore, "]. *)
Definition furthermore_no_lang : string :=
  nl ++ nl ++ "Furthermore, it looks like you pasted Python code without syntax "
  ++ "highlighting. Please use syntax highlighting to improve the legibility of "
  ++ "your code and make it easier for us to help you.".

(** The test [get_instructions] searches the blocks with. *)
Definition bad_tick (block : CodeBlock.t) : bool :=
  negb (CodeBlock.tick block =? BACKTICK).

Definition instructions_value (content : string) : option string :=
  match find_code_blocks content with
  | None => None
  | Some [] => no_ticks_value content
  | Some ((first :: _) as blocks) =>
      match find bad_tick blocks with
      | Some block => Some (bad_ticks_value block)
      | None =>
          match bad_lang_value (CodeBlock.content first) with
          | Some msg => Some msg
          | None => no_lang_value (CodeBlock.content first)
          end
      end
  end.

End Values.

(** ** Stand-ins for [parsing]

    Concrete collaborators, the way a unit test would mock them: the scanner
    is a table from message texts to its results. *)

Module Stub.

Import Py.

Definition tilde_message : string :=
  "~~~python" ++ nl ++ "print(1)" ++ nl ++ "~~~".

Definition untagged_message : string :=
  "```" ++ nl ++ "print(1)" ++ nl ++ "```".

Definition same_line_message : string :=
  "```python print(1)" ++ nl ++ "```".

Definition ruby_message : string :=
  "```ruby" ++ nl ++ "puts 1" ++ nl ++ "```".

Definition tilde_block : CodeBlock.t :=
  CodeBlock.mk ("print(1)" ++ nl) "python" "~".

Definition untagged_block : CodeBlock.t :=
  CodeBlock.mk ("print(1)" ++ nl) "" "`".

Definition same_line_block : CodeBlock.t :=
  CodeBlock.mk ("python print(1)" ++ nl) "" "`".

Definition table : list (string * option (list CodeBlock.t)) :=
  [ (tilde_message, Some [tilde_block]);
    (untagged_message, Some [untagged_block]);
    (same_line_message, Some [same_line_block]);
    (untagged_message ++ nl ++ tilde_message, Some [untagged_block; tilde_block]);
    (ruby_message, None) ].

Fixpoint lookup {A : Type} (t : list (string * A)) (k : string) : option A :=
  match t with
  | [] => None
  | (k', v) :: t' => if k =? k' then Some v else lookup t' k
  end.

Definition scan (t : list (string * option (list CodeBlock.t)))
    (message : string) : option (list CodeBlock.t) :=
  match lookup t message with
  | Some r => r
  | None => Some []
  end.

Definition parse (content : string) : option BadLanguage.t :=
  if String.prefix "python " content then Some (BadLanguage.mk "python" false false)
  else if String.prefix " python" content then Some (BadLanguage.mk "python" true true)
  else if String.prefix "python" content then Some (BadLanguage.mk "python" false true)
  else None.

Definition parsing : Parsing := {|
  PY_LANG_CODES := ["python"; "pycon"; "py"];
  find_code_blocks := scan table;
  is_repl_code := String.prefix ">>> ";
  is_python_code := String.prefix "print(";
  parse_bad_language := parse
|}.

End Stub.

(** Two message texts around the same untagged block. *)
Module Quoting.

Import Py.

Definition plain_message : string :=
  "```" ++ nl ++ "print(1)" ++ nl ++ "```".

Definition quoted_message : string :=
  "Why does this fail?" ++ nl ++ plain_message.

Definition parsing : Parsing := {|
  PY_LANG_CODES := ["python"; "pycon"; "py"];
  find_code_blocks :=
    Stub.scan [ (plain_message, Some [Stub.untagged_block]);
                (quoted_message, Some [Stub.untagged_block]) ];
  is_repl_code := String.prefix ">>> ";
  is_python_code := String.prefix "print(";
  parse_bad_language := Stub.parse
|}.

End Quoting.

(** ** What a computation writes to the logger *)

(** [m] only appends to the logger, and the records it appends satisfy
    [P]. *)
Definition appends {A : Type} (m : M A) (P : list string -> Prop) : Prop :=
  forall l, exists records, snd (m l) = (l ++ records)%list /\ P records.

(** [m] never writes the record [r]. *)
Definition never_logs {A : Type} (r : string) (m : M A) : Prop :=
  appends m (fun records => ~ In r records).

(** [m] writes the record [r]. *)
Definition logs {A : Type} (r : string) (m : M A) : Prop :=
  appends m (fun records => In r records).

(** The record [_get_no_lang_message] starts with; no other function of
    the module writes it. *)
Definition no_lang_record : string :=
  "Creating instructions for a missing language.".

(** The record [get_instructions] writes when it falls through to the
    first block (line 169). *)
Definition fall_through_record : string :=
  "A code block exists but is missing a language.".

(** Modelled from the spec: the contract of the scanner
    [parsing.find_code_blocks], which is not part of the sources at hand.
    The spec has the scanner signal that no malformed fence exists, in
    which case there is no message (4.6, state 1, and scenario 5 for a block
    with the back tick and a tag), and has the missing-language advisor
    triggered on a block with a correct fence but an empty language tag
    (4.5).  So a list the scanner returns holds no well-formed block: a
    returned block with the back tick has no language.  The dispatcher
    relies on it: for [None] it records that at least one valid code block
    was found (line 155), and when it falls through it records that a code
    block exists but is missing a language (line 169). *)
Definition scanner_contract (parsing : Parsing) : Prop :=
  forall content blocks block,
    find_code_blocks content = Some blocks ->
    In block blocks ->
    CodeBlock.tick block = BACKTICK ->
    CodeBlock.language block = "".

(** ** The monad *)

Section Monad.

Context {A B : Type}.

Lemma returns_ret (a : A) : returns (ret a) a.
Proof. intros l. reflexivity. Qed.

Lemma returns_bind (m : M A) (k : A -> M B) (a : A) (b : B) :
  returns m a -> returns (k a) b -> returns (bind m k) b.
Proof.
  intros Hm Hk l. unfold bind.
  specialize (Hm l). destruct (m l) as [o l']. simpl in Hm. subst o.
  apply Hk.
Qed.

Lemma returns_inj (m : M A) (a a' : A) :
  returns m a -> returns m a' -> a = a'.
Proof.
  intros H H'. specialize (H []). specialize (H' []).
  rewrite H in H'. now inversion H'.
Qed.

End Monad.

Lemma returns_trace (msg : string) : returns (trace msg) tt.
Proof. intros l. reflexivity. Qed.

Create HintDb returns.
#[local] Hint Resolve returns_ret returns_trace : returns.


(** Runs a computation symbolically: one [bind] at a time, calls being
    closed by the facts of the [returns] database. *)
Ltac run :=
  repeat (cbv beta iota zeta;
          lazymatch goal with
          | |- returns (ret _) _ => apply returns_ret
          | |- returns (trace _) _ => apply returns_trace
          | |- returns (bind _ _) _ => eapply returns_bind
          | |- returns _ _ => solve [ eauto with returns ]
          end).

(** ** Strings *)

Section Strings.

Import Py.

Lemma append_assoc (a b c : string) : (a ++ b) ++ c = a ++ b ++ c.
Proof. induction a as [|x a IH]; simpl; [reflexivity | now rewrite IH]. Qed.

Lemma append_nil_r (a : string) : a ++ "" = a.
Proof. induction a as [|x a IH]; simpl; [reflexivity | now rewrite IH]. Qed.

Lemma truthy_true (s : string) : truthy s = true <-> s <> "".
Proof. destruct s; simpl; split; congruence. Qed.

Lemma truthy_append_l (a b : string) : truthy a = true -> truthy (a ++ b) = true.
Proof. destruct a; simpl; congruence. Qed.

Lemma Contains_refl (s : string) : Contains s s.
Proof. exists "", "". now rewrite append_nil_r. Qed.

Lemma Contains_append_r (sub a b : string) : Contains sub b -> Contains sub (a ++ b).
Proof.
  intros (pre & post & ->). exists (a ++ pre), post. now rewrite append_assoc.
Qed.

Lemma Contains_append_l (sub a b : string) : Contains sub a -> Contains sub (a ++ b).
Proof.
  intros (pre & post & ->). exists pre, (post ++ b). now rewrite !append_assoc.
Qed.

Lemma first_line_append (s rest : string) :
  single_line s = true -> first_line (s ++ nl ++ rest) = s.
Proof.
  induction s as [|c s IH]; intros H.
  - reflexivity.
  - simpl in H. apply andb_true_iff in H as [Hc Hs].
    apply negb_true_iff in Hc.
    change (first_line (String c (s ++ nl ++ rest)) = String c s).
    cbn [first_line]. rewrite Hc. f_equal. now apply IH.
Qed.

Lemma single_line_append (a b : string) :
  single_line a = true -> single_line b = true -> single_line (a ++ b) = true.
Proof.
  induction a as [|c a IH]; simpl; intros Ha Hb.
  - exact Hb.
  - apply andb_true_iff in Ha as [Hc Ha]. rewrite Hc. simpl. now apply IH.
Qed.

(** Replacing inside a non-empty string by a non-empty string leaves it
    non-empty. *)
Lemma replace_first_truthy (old new s : string) :
  truthy new = true -> truthy s = true -> truthy (replace_first old new s) = true.
Proof.
  intros Hn Hs. destruct s as [|c s]; [discriminate|].
  cbn [replace_first].
  destruct (startswith old (String c s)); [|reflexivity].
  now apply truthy_append_l.
Qed.

End Strings.

(** ** What each advisor returns *)

Section Advisors.

Context {parsing : Parsing}.

Import Py.

Lemma _get_example_returns (language : string) :
  returns (_get_example language) (example_of language).
Proof.
  unfold _get_example, example_of.
  destruct (contains PY_LANG_CODES (lower language)); [|destruct (truthy language)];
    run.
Qed.

#[local] Hint Resolve _get_example_returns : returns.

Lemma _get_no_ticks_message_returns (content : string) :
  returns (_get_no_ticks_message content)
    (if is_repl_code content || is_python_code content
     then Some (no_ticks_text (example_of "python")) else None).
Proof.
  unfold _get_no_ticks_message.
  destruct (is_repl_code content || is_python_code content); run.
Qed.

Lemma _get_no_lang_message_returns (content : string) :
  returns (_get_no_lang_message content)
    (if is_repl_code content || is_python_code content
     then Some (no_lang_text (example_of "python")) else None).
Proof.
  unfold _get_no_lang_message.
  destruct (is_repl_code content || is_python_code content); run.
Qed.

Lemma _get_bad_lang_message_returns (content : string) :
  returns (_get_bad_lang_message content) (bad_lang_value content).
Proof.
  unfold _get_bad_lang_message, bad_lang_value, bad_lang_lines.
  destruct (parse_bad_language content) as [[language ls tn]|]; [|run].
  destruct ls, tn;
    cbn [BadLanguage.leading_spaces BadLanguage.terminal_newline
         BadLanguage.language negb];
    repeat (run; cbn [truthy_list List.app]).
Qed.

#[local] Hint Resolve _get_no_ticks_message_returns _get_no_lang_message_returns
  _get_bad_lang_message_returns : returns.

Lemma bad_lang_value_truthy (content msg : string) :
  bad_lang_value content = Some msg -> truthy msg = true.
Proof.
  unfold bad_lang_value.
  destruct (parse_bad_language content) as [info|]; [|discriminate].
  destruct (truthy_list _); [|discriminate].
  intros [= <-]. reflexivity.
Qed.

Lemma no_lang_value_truthy (content msg : string) :
  no_lang_value content = Some msg -> truthy msg = true.
Proof.
  unfold no_lang_value. destruct (_ || _); [|discriminate].
  intros [= <-]. reflexivity.
Qed.

Lemma no_ticks_value_truthy (content msg : string) :
  no_ticks_value content = Some msg -> truthy msg = true.
Proof.
  unfold no_ticks_value. destruct (_ || _); [|discriminate].
  intros [= <-]. reflexivity.
Qed.

Lemma addition_of_truthy (code_block : CodeBlock.t) (msg : string) :
  addition_of code_block = Some msg -> truthy msg = true.
Proof.
  unfold addition_of.
  destruct (bad_lang_value _) as [m|] eqn:E.
  - intros [= <-]. eauto using bad_lang_value_truthy.
  - destruct (truthy _); [discriminate|]. apply no_lang_value_truthy.
Qed.

(** The ["Furthermore, "] branch of [_get_bad_ticks_message]. *)
Lemma furthermore_returns (instructions msg : string) :
  truthy msg = true ->
  returns
    (first <- str_getitem0 (replace_first (nl ++ nl) " " msg) ;;
     ret (Some (instructions ++ nl ++ nl ++ "Furthermore, "
                ++ lower first ++ slice_from 1 (replace_first (nl ++ nl) " " msg))))
    (Some (instructions ++ nl ++ nl ++ "Furthermore, " ++ subordinate msg)).
Proof.
  intros Hmsg. unfold subordinate.
  assert (Hr : truthy (replace_first (nl ++ nl) " " msg) = true)
    by now apply replace_first_truthy.
  destruct (replace_first (nl ++ nl) " " msg) as [|c r]; [discriminate|].
  simpl str_getitem0. run.
Qed.

Lemma _get_bad_ticks_message_returns (code_block : CodeBlock.t) :
  returns (_get_bad_ticks_message code_block) (Some (bad_ticks_value code_block)).
Proof.
  unfold _get_bad_ticks_message, bad_ticks_value.
  pose proof (addition_of_truthy code_block) as Hadd.
  unfold addition_of in *.
  eapply returns_bind; [apply returns_trace|]. cbv beta zeta.
  eapply returns_bind; [apply returns_trace|]. cbv beta.
  eapply returns_bind; [apply _get_bad_lang_message_returns|]. cbv beta.
  destruct (bad_lang_value (CodeBlock.content code_block)) as [msg|] eqn:Ebad.
  - assert (Hmsg : truthy msg = true) by eauto using bad_lang_value_truthy.
    simpl truthy_opt. rewrite Hmsg. simpl negb. rewrite andb_false_l.
    eapply returns_bind; [apply returns_ret|]. cbv beta iota. rewrite Hmsg.
    eapply returns_bind; [apply returns_trace|]. cbv beta zeta.
    now apply furthermore_returns.
  - simpl truthy_opt. simpl negb at 1. rewrite andb_true_l.
    destruct (truthy (CodeBlock.language code_block)); simpl negb; cbv iota.
    + run.
    + eapply returns_bind; [apply _get_no_lang_message_returns|]. cbv beta.
      fold (no_lang_value (CodeBlock.content code_block)) in *.
      destruct (no_lang_value _) as [msg|] eqn:Eno.
      * assert (Hmsg : truthy msg = true) by eauto.
        cbv beta iota. rewrite Hmsg.
        eapply returns_bind; [apply returns_trace|]. cbv beta zeta.
        now apply furthermore_returns.
      * run.
Qed.

#[local] Hint Resolve _get_bad_ticks_message_returns : returns.

Lemma get_instructions_returns (content : string) :
  returns (get_instructions content) (instructions_value content).
Proof.
  unfold get_instructions, instructions_value.
  fold bad_tick.
  eapply returns_bind; [apply returns_trace|]. cbv beta.
  destruct (find_code_blocks content) as [[|first rest]|]; [| |run].
  - cbn [truthy_list negb]. run.
  - destruct (find bad_tick (first :: rest)) as [block|].
    { cbn [truthy_list negb]. run. }
    cbn [truthy_list negb list_getitem0]. run.
    destruct (bad_lang_value (CodeBlock.content first)) as [msg|] eqn:Ebad.
    + cbn [truthy_opt]. rewrite (bad_lang_value_truthy _ _ Ebad). cbn [negb]. run.
    + cbn [truthy_opt negb]. run.
Qed.

(** The first block with a bad tick is the one [find] returns. *)
Lemma find_bad_tick_first (pre post : list CodeBlock.t) (block : CodeBlock.t) :
  Forall (fun b => CodeBlock.tick b = BACKTICK) pre ->
  CodeBlock.tick block <> BACKTICK ->
  find bad_tick (pre ++ block :: post)%list = Some block.
Proof.
  intros Hpre Hblock. induction Hpre as [|b pre Hb _ IH]; simpl.
  - unfold bad_tick. apply String.eqb_neq in Hblock. now rewrite Hblock.
  - unfold bad_tick at 1. rewrite Hb, String.eqb_refl. exact IH.
Qed.

Lemma find_bad_tick_none (blocks : list CodeBlock.t) :
  Forall (fun b => CodeBlock.tick b = BACKTICK) blocks ->
  find bad_tick blocks = None.
Proof.
  induction 1 as [|b blocks Hb _ IH]; simpl; [reflexivity|].
  unfold bad_tick at 1. rewrite Hb, String.eqb_refl. exact IH.
Qed.

End Advisors.

(** ** The subordinate clause *)

Section Clause.

Import Py.

Lemma subordinate_bad_lang_text (lines example_blocks : string) :
  nl ++ nl ++ "Furthermore, " ++ subordinate (bad_lang_text lines example_blocks)
  = furthermore_bad_lang lines ++ example_header ++ example_blocks.
Proof.
  reflexivity.
Qed.

Lemma subordinate_no_lang_text (example_blocks : string) :
  nl ++ nl ++ "Furthermore, " ++ subordinate (no_lang_text example_blocks)
  = furthermore_no_lang ++ method_header ++ example_blocks.
Proof. reflexivity. Qed.

End Clause.

(** ** The texts of the messages *)

Section Texts.

Context {parsing : Parsing}.

Import Py.

Lemma returns_eq {A : Type} (m : M A) (a b : A) :
  returns m a -> a = b -> returns m b.
Proof. now intros H <-. Qed.

Lemma bad_ticks_instructions_text (code_block : CodeBlock.t) :
  bad_ticks_instructions code_block
  = "It looks like you are trying to paste code into this channel." ++ nl ++ nl
    ++ "You seem to be using the wrong symbols to indicate where the code block "
    ++ "should start. The correct symbols would be \`\`\`, not `"
    ++ CodeBlock.tick code_block ++ CodeBlock.tick code_block
    ++ CodeBlock.tick code_block ++ "`.".
Proof.
  unfold bad_ticks_instructions. cbn [repeat].
  rewrite append_nil_r, !append_assoc. reflexivity.
Qed.

Lemma bad_lang_lines_text (info : BadLanguage.t) :
  join " " (bad_lang_lines info)
  = match BadLanguage.leading_spaces info, BadLanguage.terminal_newline info with
    | true, true =>
        "Make sure there are no spaces between the back ticks and `"
        ++ BadLanguage.language info ++ "`."
    | true, false =>
        "Make sure there are no spaces between the back ticks and `"
        ++ BadLanguage.language info ++ "`. "
        ++ "Make sure you put your code on a new line following `"
        ++ BadLanguage.language info ++ "`. "
        ++ "There must not be any spaces after `" ++ BadLanguage.language info ++ "`."
    | false, false =>
        "Make sure you put your code on a new line following `"
        ++ BadLanguage.language info ++ "`. "
        ++ "There must not be any spaces after `" ++ BadLanguage.language info ++ "`."
    | false, true => ""
    end.
Proof.
  unfold bad_lang_lines, no_spaces_line, new_line_line.
  destruct (BadLanguage.leading_spaces info), (BadLanguage.terminal_newline info);
    cbn [List.app join]; rewrite ?append_assoc; reflexivity.
Qed.

Lemma bad_lang_text_literal (lines example_blocks : string) :
  bad_lang_text lines example_blocks
  = "It looks like you incorrectly specified a language for your code block."
    ++ nl ++ nl ++ lines
    ++ nl ++ nl ++ "**Here is an example of how it should look:**" ++ nl
    ++ example_blocks.
Proof. reflexivity. Qed.

Lemma no_lang_text_literal (example_blocks : string) :
  no_lang_text example_blocks
  = "It looks like you pasted Python code without syntax highlighting." ++ nl ++ nl
    ++ "Please use syntax highlighting to improve the legibility of your code and "
    ++ "make it easier for us to help you."
    ++ nl ++ nl ++ "**To do this, use the following method:**" ++ nl
    ++ example_blocks.
Proof. reflexivity. Qed.

(** The message of the bad-fence advisor, in each of its three endings. *)
Lemma bad_ticks_text_bad_lang (code_block : CodeBlock.t) (lines example_blocks : string) :
  bad_ticks_instructions code_block ++ nl ++ nl ++ "Furthermore, "
  ++ subordinate (bad_lang_text lines example_blocks)
  = "It looks like you are trying to paste code into this channel." ++ nl ++ nl
    ++ "You seem to be using the wrong symbols to indicate where the code block "
    ++ "should start. The correct symbols would be \`\`\`, not `"
    ++ CodeBlock.tick code_block ++ CodeBlock.tick code_block
    ++ CodeBlock.tick code_block ++ "`."
    ++ nl ++ nl ++ "Furthermore, it looks like you incorrectly specified a language "
    ++ "for your code block. " ++ lines
    ++ nl ++ nl ++ "**Here is an example of how it should look:**" ++ nl
    ++ example_blocks.
Proof.
  rewrite subordinate_bad_lang_text, bad_ticks_instructions_text.
  unfold furthermore_bad_lang, example_header.
  rewrite !append_assoc. reflexivity.
Qed.

Lemma bad_ticks_text_no_lang (code_block : CodeBlock.t) (example_blocks : string) :
  bad_ticks_instructions code_block ++ nl ++ nl ++ "Furthermore, "
  ++ subordinate (no_lang_text example_blocks)
  = "It looks like you are trying to paste code into this channel." ++ nl ++ nl
    ++ "You seem to be using the wrong symbols to indicate where the code block "
    ++ "should start. The correct symbols would be \`\`\`, not `"
    ++ CodeBlock.tick code_block ++ CodeBlock.tick code_block
    ++ CodeBlock.tick code_block ++ "`."
    ++ nl ++ nl ++ "Furthermore, it looks like you pasted Python code without syntax "
    ++ "highlighting. Please use syntax highlighting to improve the legibility of "
    ++ "your code and make it easier for us to help you."
    ++ nl ++ nl ++ "**To do this, use the following method:**" ++ nl
    ++ example_blocks.
Proof.
  rewrite subordinate_no_lang_text, bad_ticks_instructions_text.
  unfold furthermore_no_lang, method_header.
  rewrite !append_assoc. reflexivity.
Qed.

Lemma bad_ticks_text_example (code_block : CodeBlock.t) (example_blocks : string) :
  bad_ticks_instructions code_block ++ example_header ++ example_blocks
  = "It looks like you are trying to paste code into this channel." ++ nl ++ nl
    ++ "You seem to be using the wrong symbols to indicate where the code block "
    ++ "should start. The correct symbols would be \`\`\`, not `"
    ++ CodeBlock.tick code_block ++ CodeBlock.tick code_block
    ++ CodeBlock.tick code_block ++ "`."
    ++ nl ++ nl ++ "**Here is an example of how it should look:**" ++ nl
    ++ example_blocks.
Proof.
  rewrite bad_ticks_instructions_text. unfold example_header.
  rewrite !append_assoc. reflexivity.
Qed.

End Texts.

(** ** The dispatcher *)

Section Dispatcher.

Context {parsing : Parsing}.

Import Py.

(** C1. [get_instructions] follows the dispatcher's priority order.  When
    the scanner signals that all blocks are valid, nothing is returned.
    When it found no block, the result is that of the missing-fence advisor.
    When some returned block has a tick other than the back tick, the result
    is that of the bad-fence advisor on the first such block.  Otherwise only
    the first block is analysed: the result is the message of the
    malformed-language advisor when it has one, and that of the
    missing-language advisor when it has none. *)
Theorem get_instructions_priority (content : string) :
  (find_code_blocks content = None ->
   returns (get_instructions content) None)
  /\ (find_code_blocks content = Some [] ->
      forall r, returns (_get_no_ticks_message content) r ->
                returns (get_instructions content) r)
  /\ (forall pre block post,
        find_code_blocks content = Some (pre ++ block :: post)%list ->
        Forall (fun b => CodeBlock.tick b = BACKTICK) pre ->
        CodeBlock.tick block <> BACKTICK ->
        forall r, returns (_get_bad_ticks_message block) r ->
                  returns (get_instructions content) r)
  /\ (forall first rest,
        find_code_blocks content = Some (first :: rest) ->
        Forall (fun b => CodeBlock.tick b = BACKTICK) (first :: rest) ->
        forall bad, returns (_get_bad_lang_message (CodeBlock.content first)) bad ->
          (forall msg, bad = Some msg ->
                       returns (get_instructions content) (Some msg))
          /\ (bad = None ->
              forall r, returns (_get_no_lang_message (CodeBlock.content first)) r ->
                        returns (get_instructions content) r)).
Proof.
  pose proof (get_instructions_returns content) as H.
  unfold instructions_value in H.
  split; [|split; [|split]].
  - intros E. now rewrite E in H.
  - intros E r Hr. rewrite E in H.
    now rewrite (returns_inj _ _ _ Hr (_get_no_ticks_message_returns content)).
  - intros pre block post E Hpre Hblock r Hr. rewrite E in H.
    assert (Hfind := find_bad_tick_first pre post block Hpre Hblock).
    rewrite (returns_inj _ _ _ Hr (_get_bad_ticks_message_returns block)).
    destruct pre; simpl in *; now rewrite Hfind in H.
  - intros first rest E Hall bad Hbad. rewrite E in H.
    rewrite (find_bad_tick_none _ Hall) in H.
    rewrite <- (returns_inj _ _ _ Hbad (_get_bad_lang_message_returns _)) in H.
    split.
    + intros msg ->. exact H.
    + intros -> r Hr.
      now rewrite (returns_inj _ _ _ Hr (_get_no_lang_message_returns _)).
Qed.

(** C6. When the scanner finds no block, [get_instructions] returns a
    non-empty message that contains a Python-tagged example if and only if
    the text is judged to be REPL or Python code; otherwise it returns
    nothing. *)
Theorem no_blocks_message_iff_python (content : string) :
  find_code_blocks content = Some [] ->
  ((is_repl_code content || is_python_code content = true <->
    exists msg example_blocks,
      returns (get_instructions content) (Some msg)
      /\ msg <> ""
      /\ returns (_get_example "python") example_blocks
      /\ Contains example_blocks msg
      /\ Contains ("```python" ++ nl) example_blocks)
   /\ (is_repl_code content || is_python_code content = false ->
       returns (get_instructions content) None)).
Proof.
  intros E.
  pose proof (get_instructions_returns content) as H.
  unfold instructions_value, no_ticks_value in H. rewrite E in H.
  destruct (is_repl_code content || is_python_code content); split.
  - split; [intros _|reflexivity].
    exists (no_ticks_text (example_of "python")), (example_of "python").
    repeat split.
    + exact H.
    + discriminate.
    + apply _get_example_returns.
    + unfold no_ticks_text. do 10 apply Contains_append_r. apply Contains_refl.
    + unfold example_of, _EXAMPLE_CODE_BLOCKS.
      do 8 apply Contains_append_r.
      destruct (contains PY_LANG_CODES (lower "python")).
      * exists "", ("print('Hello, world!')" ++ "```"). reflexivity.
      * exists "", ("..." ++ "```"). reflexivity.
  - discriminate.
  - split; [discriminate|].
    intros (msg & ex & Hmsg & _). pose proof (returns_inj _ _ _ H Hmsg). discriminate.
  - intros _. exact H.
Qed.

(** C10. [get_instructions] returns either nothing or a non-empty string,
    never the empty string. *)
Theorem get_instructions_none_or_nonempty (content : string) :
  returns (get_instructions content) None
  \/ exists msg, returns (get_instructions content) (Some msg) /\ msg <> "".
Proof.
  pose proof (get_instructions_returns content) as H.
  destruct (instructions_value content) as [msg|] eqn:E; [right|now left].
  exists msg. split; [exact H|]. apply truthy_true.
  unfold instructions_value in E.
  destruct (find_code_blocks content) as [[|first rest]|]; [| |discriminate].
  - eauto using no_ticks_value_truthy.
  - destruct (find bad_tick (first :: rest)) as [block|].
    + injection E as <-. unfold bad_ticks_value.
      destruct (addition_of block); reflexivity.
    + destruct (bad_lang_value (CodeBlock.content first)) as [m|] eqn:Ebad.
      * injection E as <-. eauto using bad_lang_value_truthy.
      * eauto using no_lang_value_truthy.
Qed.

End Dispatcher.

(** ** Message composition *)

Section Composition.

Context {parsing : Parsing}.

Import Py.

(** The example for a language that is not a Python code, split at its
    first line break. *)
Lemma example_of_foreign (language : string) :
  truthy language = true ->
  contains PY_LANG_CODES (lower language) = false ->
  example_of language
  = ("\`\`\`" ++ language) ++ nl
    ++ "..." ++ nl ++ "\`\`\`" ++ nl ++ nl
    ++ "**This will result in the following:**" ++ nl
    ++ "```" ++ (language ++ nl ++ "...") ++ "```".
Proof.
  intros Ht Hc. unfold example_of, _EXAMPLE_CODE_BLOCKS.
  rewrite Hc, Ht. rewrite !append_assoc. reflexivity.
Qed.

(** C3, as amended.  For a non-empty language that is not a Python code and
    has no line break, the first line of the example is the escaped fence
    followed by the language exactly as given, case preserved. *)
Theorem example_first_line (language : string) :
  language <> "" ->
  contains PY_LANG_CODES (lower language) = false ->
  single_line language = true ->
  exists example_blocks,
    returns (_get_example language) example_blocks
    /\ first_line example_blocks = "\`\`\`" ++ language.
Proof.
  intros Hne Hc Hline.
  exists (example_of language). split; [apply _get_example_returns|].
  rewrite example_of_foreign by (try apply truthy_true; assumption).
  apply first_line_append. now apply single_line_append.
Qed.

(** C7. The malformed-language advisor returns nothing when the analyzer
    has no record, and nothing when the record has neither leading spaces
    nor a missing newline.  When at least one of the two applies, it returns
    its opening sentence, then the instruction sentences that apply (the one
    about spaces before the tag, the one about the new line after the tag,
    or both in this order, separated by a space), then the header and the
    example for the language of the record. *)
Theorem bad_lang_message_cases (content : string) :
  (parse_bad_language content = None ->
   returns (_get_bad_lang_message content) None)
  /\ (forall info,
        parse_bad_language content = Some info ->
        BadLanguage.leading_spaces info = false ->
        BadLanguage.terminal_newline info = true ->
        returns (_get_bad_lang_message content) None)
  /\ (forall info,
        parse_bad_language content = Some info ->
        exists example_blocks,
          returns (_get_example (BadLanguage.language info)) example_blocks
          /\ (BadLanguage.leading_spaces info = true ->
              BadLanguage.terminal_newline info = true ->
              returns (_get_bad_lang_message content)
                (Some
                   ("It looks like you incorrectly specified a language for your code block."
                    ++ nl ++ nl
                    ++ "Make sure there are no spaces between the back ticks and `"
                    ++ BadLanguage.language info ++ "`."
                    ++ nl ++ nl ++ "**Here is an example of how it should look:**" ++ nl
                    ++ example_blocks)))
          /\ (BadLanguage.leading_spaces info = false ->
              BadLanguage.terminal_newline info = false ->
              returns (_get_bad_lang_message content)
                (Some
                   ("It looks like you incorrectly specified a language for your code block."
                    ++ nl ++ nl
                    ++ "Make sure you put your code on a new line following `"
                    ++ BadLanguage.language info ++ "`. "
                    ++ "There must not be any spaces after `"
                    ++ BadLanguage.language info ++ "`."
                    ++ nl ++ nl ++ "**Here is an example of how it should look:**" ++ nl
                    ++ example_blocks)))
          /\ (BadLanguage.leading_spaces info = true ->
              BadLanguage.terminal_newline info = false ->
              returns (_get_bad_lang_message content)
                (Some
                   ("It looks like you incorrectly specified a language for your code block."
                    ++ nl ++ nl
                    ++ "Make sure there are no spaces between the back ticks and `"
                    ++ BadLanguage.language info ++ "`. "
                    ++ "Make sure you put your code on a new line following `"
                    ++ BadLanguage.language info ++ "`. "
                    ++ "There must not be any spaces after `"
                    ++ BadLanguage.language info ++ "`."
                    ++ nl ++ nl ++ "**Here is an example of how it should look:**" ++ nl
                    ++ example_blocks)))).
Proof.
  pose proof (_get_bad_lang_message_returns content) as H.
  unfold bad_lang_value in H.
  split; [|split].
  - intros E. now rewrite E in H.
  - intros info E Hls Htn. rewrite E in H. unfold bad_lang_lines in H.
    now rewrite Hls, Htn in H.
  - intros info E. rewrite E in H.
    rewrite bad_lang_lines_text, bad_lang_text_literal in H.
    unfold bad_lang_lines in H.
    exists (example_of (BadLanguage.language info)).
    split; [apply _get_example_returns|].
    generalize dependent (example_of (BadLanguage.language info)).
    intros example_blocks H.
    split; [|split]; intros Hls Htn; rewrite Hls, Htn in H;
      cbn [truthy_list List.app] in H;
      (eapply returns_eq; [exact H|]); f_equal;
      rewrite ?append_assoc; reflexivity.
Qed.

(** C4. The bad-fence advisor looks at the malformed-language advisor
    first.  A message of that advisor is appended to the fence instructions
    as a ["Furthermore, "] clause: its capital [I] becomes [i] and the
    double line break after its first sentence becomes a space, the rest is
    kept.  Only when that advisor has no message, and the block has no
    language, the message of the missing-language advisor is appended in the
    same way.  When neither issue is found, the example for the language of
    the block is appended under its header instead. *)
Theorem bad_ticks_composition (code_block : CodeBlock.t)
    (bad missing : option string) :
  returns (_get_bad_lang_message (CodeBlock.content code_block)) bad ->
  returns (_get_no_lang_message (CodeBlock.content code_block)) missing ->
  (forall msg,
     bad = Some msg ->
     exists lines example_blocks,
       msg = "It looks like you incorrectly specified a language for your code block."
             ++ nl ++ nl ++ lines
             ++ nl ++ nl ++ "**Here is an example of how it should look:**" ++ nl
             ++ example_blocks
       /\ returns (_get_bad_ticks_message code_block)
            (Some
               ("It looks like you are trying to paste code into this channel."
                ++ nl ++ nl
                ++ "You seem to be using the wrong symbols to indicate where the code block "
                ++ "should start. The correct symbols would be \`\`\`, not `"
                ++ CodeBlock.tick code_block ++ CodeBlock.tick code_block
                ++ CodeBlock.tick code_block ++ "`."
                ++ nl ++ nl
                ++ "Furthermore, it looks like you incorrectly specified a language "
                ++ "for your code block. " ++ lines
                ++ nl ++ nl ++ "**Here is an example of how it should look:**" ++ nl
                ++ example_blocks)))
  /\ (forall msg,
        bad = None -> CodeBlock.language code_block = "" -> missing = Some msg ->
        exists example_blocks,
          msg = "It looks like you pasted Python code without syntax highlighting."
                ++ nl ++ nl
                ++ "Please use syntax highlighting to improve the legibility of your code and "
                ++ "make it easier for us to help you."
                ++ nl ++ nl ++ "**To do this, use the following method:**" ++ nl
                ++ example_blocks
          /\ returns (_get_bad_ticks_message code_block)
               (Some
                  ("It looks like you are trying to paste code into this channel."
                   ++ nl ++ nl
                   ++ "You seem to be using the wrong symbols to indicate where the code block "
                   ++ "should start. The correct symbols would be \`\`\`, not `"
                   ++ CodeBlock.tick code_block ++ CodeBlock.tick code_block
                   ++ CodeBlock.tick code_block ++ "`."
                   ++ nl ++ nl
                   ++ "Furthermore, it looks like you pasted Python code without syntax "
                   ++ "highlighting. Please use syntax highlighting to improve the legibility of "
                   ++ "your code and make it easier for us to help you."
                   ++ nl ++ nl ++ "**To do this, use the following method:**" ++ nl
                   ++ example_blocks)))
  /\ (bad = None ->
      CodeBlock.language code_block <> "" \/ missing = None ->
      exists example_blocks,
        returns (_get_example (CodeBlock.language code_block)) example_blocks
        /\ returns (_get_bad_ticks_message code_block)
             (Some
                ("It looks like you are trying to paste code into this channel."
                 ++ nl ++ nl
                 ++ "You seem to be using the wrong symbols to indicate where the code block "
                 ++ "should start. The correct symbols would be \`\`\`, not `"
                 ++ CodeBlock.tick code_block ++ CodeBlock.tick code_block
                 ++ CodeBlock.tick code_block ++ "`."
                 ++ nl ++ nl ++ "**Here is an example of how it should look:**" ++ nl
                 ++ example_blocks))).
Proof.
  intros Hbad Hmissing.
  pose proof (_get_bad_ticks_message_returns code_block) as H.
  unfold bad_ticks_value, addition_of in H.
  pose proof (returns_inj _ _ _ Hbad (_get_bad_lang_message_returns _)) as Eb.
  rewrite <- Eb in H.
  pose proof (returns_inj _ _ _ Hmissing (_get_no_lang_message_returns _)) as Em.
  fold (no_lang_value (CodeBlock.content code_block)) in Em. rewrite <- Em in H.
  split; [|split].
  - intros msg ->. symmetry in Eb. unfold bad_lang_value in Eb.
    destruct (parse_bad_language (CodeBlock.content code_block)) as [info|];
      [|discriminate].
    destruct (truthy_list (bad_lang_lines info)); [|discriminate].
    injection Eb as <-.
    exists (join " " (bad_lang_lines info)), (example_of (BadLanguage.language info)).
    split; [apply bad_lang_text_literal|].
    now rewrite bad_ticks_text_bad_lang in H.
  - intros msg -> Hlang ->. rewrite Hlang in H. cbn [truthy] in H.
    symmetry in Em. unfold no_lang_value in Em.
    destruct (is_repl_code _ || is_python_code _); [|discriminate].
    injection Em as <-.
    exists (example_of "python").
    split; [apply no_lang_text_literal|].
    now rewrite bad_ticks_text_no_lang in H.
  - intros -> Hnone.
    exists (example_of (CodeBlock.language code_block)).
    split; [apply _get_example_returns|].
    rewrite <- bad_ticks_text_example.
    destruct (truthy (CodeBlock.language code_block)) eqn:Ht; [exact H|].
    destruct Hnone as [Hlang| ->]; [|exact H].
    apply truthy_true in Hlang. congruence.
Qed.

(** Close the goal of [bad_ticks_single_message] when the message ends with
    the example of the block, and when it ends with the missing-language
    clause. *)
Ltac ends_with_example :=
  lazymatch goal with
  | |- context [ example_of ?language ] =>
      generalize (_get_example_returns language);
      generalize (example_of language);
      let ex := fresh "ex" in
      let Hret := fresh "Hret" in
      intros ex Hret;
      exists "", (Py.nl ++ Py.nl ++ "**Here is an example of how it should look:**" ++ Py.nl),
        language, ex;
      split; [exact Hret|];
      split; [rewrite bad_ticks_text_example; reflexivity|];
      left; repeat split; reflexivity
  end.

Ltac ends_with_no_lang :=
  generalize (_get_example_returns "python");
  generalize (example_of "python");
  let ex := fresh "ex" in
  let Hret := fresh "Hret" in
  intros ex Hret;
  exists (Py.nl ++ Py.nl
          ++ "Furthermore, it looks like you pasted Python code without syntax "
          ++ "highlighting. Please use syntax highlighting to improve the "
          ++ "legibility of your code and make it easier for us to help you."),
    (Py.nl ++ Py.nl ++ "**To do this, use the following method:**" ++ Py.nl),
    "python", ex;
  split; [exact Hret|];
  split; [rewrite bad_ticks_text_no_lang; reflexivity|];
  right; right; repeat split; reflexivity.

(** C5. The bad-fence advisor always returns one message.  The message is
    not empty and holds the sentence that quotes the escaped back ticks as
    the correct symbols and three times the tick of the block as the wrong
    ones.  It is made of the fence instructions, at most one
    ["Furthermore, "] clause of prose, and then a single example section:
    one header followed by one example, which ends the message. *)
Theorem bad_ticks_single_message (code_block : CodeBlock.t) :
  exists msg,
    returns (_get_bad_ticks_message code_block) (Some msg)
    /\ msg <> ""
    /\ Contains
         ("The correct symbols would be \`\`\`, not `"
          ++ CodeBlock.tick code_block ++ CodeBlock.tick code_block
          ++ CodeBlock.tick code_block ++ "`.")
         msg
    /\ exists prose header language example_blocks,
         returns (_get_example language) example_blocks
         /\ msg = "It looks like you are trying to paste code into this channel."
                  ++ nl ++ nl
                  ++ "You seem to be using the wrong symbols to indicate where the code block "
                  ++ "should start. The correct symbols would be \`\`\`, not `"
                  ++ CodeBlock.tick code_block ++ CodeBlock.tick code_block
                  ++ CodeBlock.tick code_block ++ "`."
                  ++ prose ++ header ++ example_blocks
         /\ ((prose = ""
              /\ header = nl ++ nl ++ "**Here is an example of how it should look:**" ++ nl
              /\ language = CodeBlock.language code_block)
             \/ (exists info lines,
                   parse_bad_language (CodeBlock.content code_block) = Some info
                   /\ In lines
                        [ "Make sure there are no spaces between the back ticks and `"
                          ++ BadLanguage.language info ++ "`.";
                          "Make sure you put your code on a new line following `"
                          ++ BadLanguage.language info ++ "`. "
                          ++ "There must not be any spaces after `"
                          ++ BadLanguage.language info ++ "`.";
                          "Make sure there are no spaces between the back ticks and `"
                          ++ BadLanguage.language info ++ "`. "
                          ++ "Make sure you put your code on a new line following `"
                          ++ BadLanguage.language info ++ "`. "
                          ++ "There must not be any spaces after `"
                          ++ BadLanguage.language info ++ "`." ]
                   /\ prose = nl ++ nl
                              ++ "Furthermore, it looks like you incorrectly specified a "
                              ++ "language for your code block. " ++ lines
                   /\ header = nl ++ nl
                               ++ "**Here is an example of how it should look:**" ++ nl
                   /\ language = BadLanguage.language info)
             \/ (prose = nl ++ nl
                         ++ "Furthermore, it looks like you pasted Python code without syntax "
                         ++ "highlighting. Please use syntax highlighting to improve the "
                         ++ "legibility of your code and make it easier for us to help you."
                 /\ header = nl ++ nl ++ "**To do this, use the following method:**" ++ nl
                 /\ language = "python")).
Proof.
  exists (bad_ticks_value code_block).
  split; [apply _get_bad_ticks_message_returns|].
  split; [unfold bad_ticks_value; destruct (addition_of code_block); discriminate|].
  split.
  - unfold bad_ticks_value.
    assert (Hin : forall tail,
               Contains
                 ("The correct symbols would be \`\`\`, not `"
                  ++ CodeBlock.tick code_block ++ CodeBlock.tick code_block
                  ++ CodeBlock.tick code_block ++ "`.")
                 (bad_ticks_instructions code_block ++ tail)).
    { intros tail. rewrite bad_ticks_instructions_text.
      exists ("It looks like you are trying to paste code into this channel."
              ++ nl ++ nl
              ++ "You seem to be using the wrong symbols to indicate where the code block "
              ++ "should start. "), tail.
      rewrite !append_assoc. reflexivity. }
    destruct (addition_of code_block); apply Hin.
  - unfold bad_ticks_value, addition_of, bad_lang_value, no_lang_value.
    destruct (parse_bad_language (CodeBlock.content code_block)) as [info|] eqn:E;
      [destruct (truthy_list (bad_lang_lines info)) eqn:Hlines|].
    + generalize (_get_example_returns (BadLanguage.language info)).
      generalize (example_of (BadLanguage.language info)). intros ex Hret.
      exists (nl ++ nl
              ++ "Furthermore, it looks like you incorrectly specified a "
              ++ "language for your code block. " ++ join " " (bad_lang_lines info)),
        (nl ++ nl ++ "**Here is an example of how it should look:**" ++ nl),
        (BadLanguage.language info), ex.
      split; [exact Hret|]. split.
      * rewrite bad_ticks_text_bad_lang. reflexivity.
      * right; left. exists info, (join " " (bad_lang_lines info)).
        split; [reflexivity|]. split; [|repeat split; reflexivity].
        rewrite bad_lang_lines_text. unfold bad_lang_lines in Hlines.
        destruct (BadLanguage.leading_spaces info),
          (BadLanguage.terminal_newline info); cbn [In]; auto.
        discriminate Hlines.
    + destruct (truthy (CodeBlock.language code_block));
        [|destruct (is_repl_code _ || is_python_code _)].
      * ends_with_example.
      * ends_with_no_lang.
      * ends_with_example.
    + destruct (truthy (CodeBlock.language code_block));
        [|destruct (is_repl_code _ || is_python_code _)].
      * ends_with_example.
      * ends_with_no_lang.
      * ends_with_example.
Qed.

(** C9. Every function of the module returns on every input and from every
    state of the logger: none raises, and having nothing to report is the
    value [None]. *)
Theorem module_total :
  (forall language, exists r, returns (_get_example language) r)
  /\ (forall code_block, exists r, returns (_get_bad_ticks_message code_block) r)
  /\ (forall content, exists r, returns (_get_no_ticks_message content) r)
  /\ (forall content, exists r, returns (_get_bad_lang_message content) r)
  /\ (forall content, exists r, returns (_get_no_lang_message content) r)
  /\ (forall content, exists r, returns (get_instructions content) r).
Proof.
  repeat split; intros; eexists.
  - apply _get_example_returns.
  - apply _get_bad_ticks_message_returns.
  - apply _get_no_ticks_message_returns.
  - apply _get_bad_lang_message_returns.
  - apply _get_no_lang_message_returns.
  - apply get_instructions_returns.
Qed.

End Composition.

(** ** The theorems at work on the stand-ins *)

Section Concrete.

Import Py.

(** C1 on four messages: a well-formed block, plain prose, a message whose
    second block has tildes, and a block with a malformed tag. *)
Lemma get_instructions_priority_witness :
  returns (get_instructions (parsing := Stub.parsing) Stub.ruby_message) None
  /\ returns (get_instructions (parsing := Stub.parsing) "hello") None
  /\ returns
       (get_instructions (parsing := Stub.parsing)
          (Stub.untagged_message ++ nl ++ Stub.tilde_message))
       (Some (bad_ticks_value (parsing := Stub.parsing) Stub.tilde_block))
  /\ returns (get_instructions (parsing := Stub.parsing) Stub.same_line_message)
       (bad_lang_value (parsing := Stub.parsing)
          (CodeBlock.content Stub.same_line_block)).
Proof.
  split; [|split; [|split]].
  - apply (proj1 (get_instructions_priority (parsing := Stub.parsing)
                    Stub.ruby_message)).
    reflexivity.
  - apply (proj1 (proj2 (get_instructions_priority (parsing := Stub.parsing)
                           "hello"))).
    + reflexivity.
    + intros l. reflexivity.
  - apply (proj1 (proj2 (proj2 (get_instructions_priority (parsing := Stub.parsing)
                                  (Stub.untagged_message ++ nl ++ Stub.tilde_message))))
             [Stub.untagged_block] Stub.tilde_block []).
    + reflexivity.
    + repeat constructor.
    + discriminate.
    + intros l. reflexivity.
  - apply (proj1 (proj2 (proj2 (proj2
                (get_instructions_priority (parsing := Stub.parsing)
                   Stub.same_line_message)))
             Stub.same_line_block [] eq_refl
             ltac:(repeat constructor)
             (bad_lang_value (parsing := Stub.parsing)
                (CodeBlock.content Stub.same_line_block))
             (fun l => eq_refl))).
    reflexivity.
Defined.

(** C3, as stated, fails: the first line of the example for [ruby] starts
    with the escaped fence, so it is not [ruby]. *)
Lemma example_first_line_not_language :
  "ruby" <> ""
  /\ contains (PY_LANG_CODES (Parsing := Stub.parsing)) (lower "ruby") = false
  /\ exists example_blocks,
       returns (_get_example (parsing := Stub.parsing) "ruby") example_blocks
       /\ first_line example_blocks = "\`\`\`ruby"
       /\ first_line example_blocks <> "ruby".
Proof.
  split; [discriminate|]. split; [reflexivity|].
  exists (example_of (parsing := Stub.parsing) "ruby").
  split; [apply _get_example_returns|]. split; [reflexivity|discriminate].
Qed.

(** C3, as amended, on [Rust]: the capital letter is kept. *)
Lemma example_first_line_witness :
  exists example_blocks,
    returns (_get_example (parsing := Stub.parsing) "Rust") example_blocks
    /\ first_line example_blocks = "\`\`\`Rust".
Proof.
  apply (example_first_line (parsing := Stub.parsing) "Rust").
  - discriminate.
  - reflexivity.
  - reflexivity.
Defined.

(** C4 on three blocks with the tick ['], one for each way the message
    ends. *)
Lemma bad_ticks_composition_witness :
  (exists lines example_blocks,
     returns
       (_get_bad_ticks_message (parsing := Stub.parsing)
          (CodeBlock.mk "python print(1)" "" "'"))
       (Some
          ("It looks like you are trying to paste code into this channel."
           ++ nl ++ nl
           ++ "You seem to be using the wrong symbols to indicate where the code block "
           ++ "should start. The correct symbols would be \`\`\`, not `'''`."
           ++ nl ++ nl
           ++ "Furthermore, it looks like you incorrectly specified a language "
           ++ "for your code block. " ++ lines
           ++ nl ++ nl ++ "**Here is an example of how it should look:**" ++ nl
           ++ example_blocks)))
  /\ (exists example_blocks,
        returns
          (_get_bad_ticks_message (parsing := Stub.parsing)
             (CodeBlock.mk "print(1)" "" "'"))
          (Some
             ("It looks like you are trying to paste code into this channel."
              ++ nl ++ nl
              ++ "You seem to be using the wrong symbols to indicate where the code block "
              ++ "should start. The correct symbols would be \`\`\`, not `'''`."
              ++ nl ++ nl
              ++ "Furthermore, it looks like you pasted Python code without syntax "
              ++ "highlighting. Please use syntax highlighting to improve the legibility of "
              ++ "your code and make it easier for us to help you."
              ++ nl ++ nl ++ "**To do this, use the following method:**" ++ nl
              ++ example_blocks)))
  /\ (exists example_blocks,
        returns (_get_example (parsing := Stub.parsing) "ruby") example_blocks
        /\ returns
             (_get_bad_ticks_message (parsing := Stub.parsing)
                (CodeBlock.mk "print(1)" "ruby" "'"))
             (Some
                ("It looks like you are trying to paste code into this channel."
                 ++ nl ++ nl
                 ++ "You seem to be using the wrong symbols to indicate where the code block "
                 ++ "should start. The correct symbols would be \`\`\`, not `'''`."
                 ++ nl ++ nl ++ "**Here is an example of how it should look:**" ++ nl
                 ++ example_blocks))).
Proof.
  split; [|split].
  - destruct (proj1 (bad_ticks_composition (parsing := Stub.parsing)
                       (CodeBlock.mk "python print(1)" "" "'") _ _
                       (fun l => eq_refl) (fun l => eq_refl))
                _ eq_refl)
      as (lines & example_blocks & _ & H).
    exists lines, example_blocks. exact H.
  - destruct (proj1 (proj2 (bad_ticks_composition (parsing := Stub.parsing)
                              (CodeBlock.mk "print(1)" "" "'") _ _
                              (fun l => eq_refl) (fun l => eq_refl)))
                _ eq_refl eq_refl eq_refl)
      as (example_blocks & _ & H).
    exists example_blocks. exact H.
  - apply (proj2 (proj2 (bad_ticks_composition (parsing := Stub.parsing)
                           (CodeBlock.mk "print(1)" "ruby" "'") _ _
                           (fun l => eq_refl) (fun l => eq_refl)))).
    + reflexivity.
    + left. discriminate.
Defined.

(** C6 on a line of Python without any fence, and on plain prose. *)
Lemma no_blocks_message_iff_python_witness :
  (exists msg example_blocks,
     returns (get_instructions (parsing := Stub.parsing) "print('hi')") (Some msg)
     /\ msg <> ""
     /\ returns (_get_example (parsing := Stub.parsing) "python") example_blocks
     /\ Contains example_blocks msg
     /\ Contains ("```python" ++ nl) example_blocks)
  /\ returns (get_instructions (parsing := Stub.parsing) "hello") None.
Proof.
  split.
  - apply (proj1 (no_blocks_message_iff_python (parsing := Stub.parsing)
                    "print('hi')" eq_refl)).
    reflexivity.
  - apply (proj2 (no_blocks_message_iff_python (parsing := Stub.parsing)
                    "hello" eq_refl)).
    reflexivity.
Defined.

(** C7 on three bodies: no tag, a well-formed tag, and a tag followed by
    code on the same line. *)
Lemma bad_lang_message_cases_witness :
  returns (_get_bad_lang_message (parsing := Stub.parsing) "print(1)") None
  /\ returns
       (_get_bad_lang_message (parsing := Stub.parsing) ("python" ++ nl ++ "print(1)"))
       None
  /\ exists example_blocks,
       returns (_get_example (parsing := Stub.parsing) "python") example_blocks
       /\ returns (_get_bad_lang_message (parsing := Stub.parsing) "python print(1)")
            (Some
               ("It looks like you incorrectly specified a language for your code block."
                ++ nl ++ nl
                ++ "Make sure you put your code on a new line following `python`. "
                ++ "There must not be any spaces after `python`."
                ++ nl ++ nl ++ "**Here is an example of how it should look:**" ++ nl
                ++ example_blocks)).
Proof.
  split; [|split].
  - apply (proj1 (bad_lang_message_cases (parsing := Stub.parsing) "print(1)")).
    reflexivity.
  - apply (proj1 (proj2 (bad_lang_message_cases (parsing := Stub.parsing)
                           ("python" ++ nl ++ "print(1)")))
             (BadLanguage.mk "python" false true));
      reflexivity.
  - destruct (proj2 (proj2 (bad_lang_message_cases (parsing := Stub.parsing)
                              "python print(1)"))
                (BadLanguage.mk "python" false false) eq_refl)
      as (example_blocks & Hex & _ & H & _).
    exists example_blocks. split; [exact Hex|]. exact (H eq_refl eq_refl).
Defined.

End Concrete.

(** ** Further properties of the dispatcher *)

Section Reports.

Context {parsing : Parsing}.

Import Py.

Lemma find_bad_tick_some (blocks : list CodeBlock.t) (block : CodeBlock.t) :
  find bad_tick blocks = Some block ->
  In block blocks /\ CodeBlock.tick block <> BACKTICK.
Proof.
  intros H. apply find_some in H as [Hin Hbad]. split; [exact Hin|].
  unfold bad_tick in Hbad. apply negb_true_iff in Hbad.
  now apply String.eqb_neq.
Qed.

Lemma find_bad_tick_exists (blocks : list CodeBlock.t) :
  Exists (fun b => CodeBlock.tick b <> BACKTICK) blocks ->
  exists block, find bad_tick blocks = Some block.
Proof.
  induction 1 as [b blocks Hb|b blocks _ IH]; simpl.
  - apply String.eqb_neq in Hb. unfold bad_tick at 1. rewrite Hb. simpl. eauto.
  - destruct (bad_tick b); eauto.
Qed.

Lemma find_bad_tick_all (blocks : list CodeBlock.t) :
  find bad_tick blocks = None ->
  Forall (fun b => CodeBlock.tick b = BACKTICK) blocks.
Proof.
  intros H. apply Forall_forall. intros b Hb.
  pose proof (find_none _ _ H b Hb) as Hbad.
  unfold bad_tick in Hbad. apply negb_false_iff in Hbad.
  now apply String.eqb_eq.
Qed.

(** X2. A wrong fence is always reported: when some returned block has a
    tick other than the back tick, [get_instructions] returns a message, and
    the message starts with the fence instructions, which name the escaped
    back ticks as the correct symbols and three times the tick of one of
    those blocks as the wrong ones. *)
Theorem bad_fence_always_reported (content : string) (blocks : list CodeBlock.t) :
  find_code_blocks content = Some blocks ->
  Exists (fun b => CodeBlock.tick b <> BACKTICK) blocks ->
  exists block tail,
    In block blocks
    /\ CodeBlock.tick block <> BACKTICK
    /\ returns (get_instructions content)
         (Some
            ("It looks like you are trying to paste code into this channel."
             ++ nl ++ nl
             ++ "You seem to be using the wrong symbols to indicate where the code block "
             ++ "should start. The correct symbols would be \`\`\`, not `"
             ++ CodeBlock.tick block ++ CodeBlock.tick block
             ++ CodeBlock.tick block ++ "`." ++ tail)).
Proof.
  intros E Hex.
  destruct (find_bad_tick_exists blocks Hex) as [block Hfind].
  destruct (find_bad_tick_some blocks block Hfind) as [Hin Htick].
  pose proof (get_instructions_returns content) as H.
  unfold instructions_value in H. rewrite E in H.
  destruct blocks as [|first rest]; [inversion Hex|].
  rewrite Hfind in H. unfold bad_ticks_value in H.
  rewrite bad_ticks_instructions_text in H.
  destruct (addition_of block); rewrite !append_assoc in H;
    eexists block, _; (split; [exact Hin|]); (split; [exact Htick|]); exact H.
Qed.

(** X3. [get_instructions] stays silent in exactly three situations: the
    scanner signals that all blocks are valid; it found no block and the
    text is not judged to be code; or every returned block has the back
    tick, the malformed-language advisor has nothing to say about the first
    block and its body is not judged to be code. *)
Theorem get_instructions_silent_iff (content : string) :
  returns (get_instructions content) None
  <-> find_code_blocks content = None
      \/ (find_code_blocks content = Some []
          /\ is_repl_code content || is_python_code content = false)
      \/ (exists first rest,
            find_code_blocks content = Some (first :: rest)
            /\ Forall (fun b => CodeBlock.tick b = BACKTICK) (first :: rest)
            /\ returns (_get_bad_lang_message (CodeBlock.content first)) None
            /\ is_repl_code (CodeBlock.content first)
               || is_python_code (CodeBlock.content first) = false).
Proof.
  pose proof (get_instructions_returns content) as H.
  unfold instructions_value in H.
  split.
  - intros Hnone. pose proof (returns_inj _ _ _ H Hnone) as E. clear H Hnone.
    destruct (find_code_blocks content) as [[|first rest]|]; [| |now left].
    + right; left. split; [reflexivity|].
      unfold no_ticks_value in E. now destruct (_ || _).
    + right; right. exists first, rest. split; [reflexivity|].
      destruct (find bad_tick (first :: rest)) eqn:Hfind; [discriminate|].
      split; [now apply find_bad_tick_all|].
      pose proof (_get_bad_lang_message_returns (CodeBlock.content first)) as Hbad.
      destruct (bad_lang_value (CodeBlock.content first)); [discriminate|].
      split; [exact Hbad|].
      unfold no_lang_value in E. now destruct (_ || _).
  - intros [E|[[E Hcode]|(first & rest & E & Hall & Hbad & Hcode)]];
      rewrite E in H.
    + exact H.
    + unfold no_ticks_value in H. now rewrite Hcode in H.
    + rewrite (find_bad_tick_none _ Hall) in H.
      rewrite <- (returns_inj _ _ _ Hbad (_get_bad_lang_message_returns _)) in H.
      unfold no_lang_value in H. now rewrite Hcode in H.
Qed.

(** X4. Once the scanner has returned at least one block, the advice is a
    function of the blocks alone: two texts with the same non-empty list of
    blocks get the same result.  The raw text is classified only when no
    block was found. *)
Theorem fenced_advice_depends_on_blocks (content content' : string)
    (first : CodeBlock.t) (rest : list CodeBlock.t) (r : option string) :
  find_code_blocks content = Some (first :: rest) ->
  find_code_blocks content' = Some (first :: rest) ->
  returns (get_instructions content) r ->
  returns (get_instructions content') r.
Proof.
  intros E E' Hr.
  pose proof (get_instructions_returns content) as H.
  pose proof (get_instructions_returns content') as H'.
  unfold instructions_value in H, H'. rewrite E in H. rewrite E' in H'.
  now rewrite (returns_inj _ _ _ Hr H).
Qed.

End Reports.

(** ** Further properties of the messages *)

Section Shapes.

Context {parsing : Parsing}.

Import Py.

Lemma truthy_false (s : string) : truthy s = false -> s = "".
Proof. destruct s; [reflexivity|discriminate]. Qed.

Lemma startswith_slice (p s : string) :
  startswith p s = true -> s = p ++ slice_from (String.length p) s.
Proof.
  revert s. induction p as [|a p IH]; intros s H; [reflexivity|].
  destruct s as [|b s]; [discriminate|].
  simpl in H. apply andb_true_iff in H as [Hab Hp].
  apply Ascii.eqb_eq in Hab. subst b. simpl. f_equal. now apply IH.
Qed.

(** A text that starts with the common opening keeps it when an example is
    appended. *)
Lemma opening_kept (prose example_blocks : string) :
  startswith "It looks like you" prose = true ->
  exists rest, prose ++ example_blocks = "It looks like you" ++ rest ++ example_blocks.
Proof.
  intros H. exists (slice_from 17 prose).
  rewrite <- append_assoc. f_equal. exact (startswith_slice _ _ H).
Qed.


Lemma no_ticks_text_split (example_blocks : string) :
  no_ticks_text example_blocks = no_ticks_text "" ++ example_blocks.
Proof. reflexivity. Qed.

Lemma no_lang_text_split (example_blocks : string) :
  no_lang_text example_blocks = no_lang_text "" ++ example_blocks.
Proof. reflexivity. Qed.

Lemma bad_lang_text_split (lines example_blocks : string) :
  bad_lang_text lines example_blocks = bad_lang_text lines "" ++ example_blocks.
Proof. unfold bad_lang_text. rewrite !append_assoc. reflexivity. Qed.

Lemma bad_ticks_opening (code_block : CodeBlock.t) (tail : string) :
  startswith "It looks like you" (bad_ticks_instructions code_block ++ tail) = true.
Proof. reflexivity. Qed.

(** A message is some prose with the common opening, then an example. *)
Lemma bad_lang_value_split (content msg : string) :
  bad_lang_value content = Some msg ->
  exists prose language,
    startswith "It looks like you" prose = true
    /\ msg = prose ++ example_of language.
Proof.
  unfold bad_lang_value.
  destruct (parse_bad_language content) as [info|]; [|discriminate].
  destruct (truthy_list _); [|discriminate]. intros [= <-].
  eexists _, _. split; [|apply bad_lang_text_split]. reflexivity.
Qed.

Lemma no_lang_value_split (content msg : string) :
  no_lang_value content = Some msg ->
  exists prose language,
    startswith "It looks like you" prose = true
    /\ msg = prose ++ example_of language.
Proof.
  unfold no_lang_value. destruct (_ || _); [|discriminate]. intros [= <-].
  eexists _, _. split; [|apply no_lang_text_split]. reflexivity.
Qed.

Lemma no_ticks_value_split (content msg : string) :
  no_ticks_value content = Some msg ->
  exists prose language,
    startswith "It looks like you" prose = true
    /\ msg = prose ++ example_of language.
Proof.
  unfold no_ticks_value. destruct (_ || _); [|discriminate]. intros [= <-].
  eexists _, _. split; [|apply no_ticks_text_split]. reflexivity.
Qed.

Lemma bad_ticks_value_split (code_block : CodeBlock.t) :
  exists prose language,
    startswith "It looks like you" prose = true
    /\ bad_ticks_value code_block = prose ++ example_of language.
Proof.
  unfold bad_ticks_value, addition_of, bad_lang_value, no_lang_value.
  set (instructions := bad_ticks_instructions code_block).
  assert (Hfb : forall lines language,
             exists prose language',
               startswith "It looks like you" prose = true
               /\ instructions ++ nl ++ nl ++ "Furthermore, "
                  ++ subordinate (bad_lang_text lines (example_of language))
                  = prose ++ example_of language').
  { intros lines language.
    exists (instructions ++ furthermore_bad_lang lines ++ example_header), language.
    split; [apply bad_ticks_opening|].
    now rewrite subordinate_bad_lang_text, !append_assoc. }
  assert (Hfn : exists prose language',
             startswith "It looks like you" prose = true
             /\ instructions ++ nl ++ nl ++ "Furthermore, "
                ++ subordinate (no_lang_text (example_of "python"))
                = prose ++ example_of language').
  { exists (instructions ++ furthermore_no_lang ++ method_header), "python".
    split; [apply bad_ticks_opening|].
    now rewrite subordinate_no_lang_text, !append_assoc. }
  assert (Hex : exists prose language',
             startswith "It looks like you" prose = true
             /\ instructions ++ example_header
                ++ example_of (CodeBlock.language code_block)
                = prose ++ example_of language').
  { exists (instructions ++ example_header), (CodeBlock.language code_block).
    split; [apply bad_ticks_opening|]. now rewrite append_assoc. }
  destruct (parse_bad_language (CodeBlock.content code_block)) as [info|].
  - destruct (truthy_list (bad_lang_lines info)); [apply Hfb|].
    destruct (truthy (CodeBlock.language code_block)); [exact Hex|].
    destruct (_ || _); [exact Hfn|exact Hex].
  - destruct (truthy (CodeBlock.language code_block)); [exact Hex|].
    destruct (_ || _); [exact Hfn|exact Hex].
Qed.

(** X5. Every message [get_instructions] returns starts with the words
    [It looks like you] and ends with the example for some language. *)
Theorem message_opens_and_ends_alike (content msg : string) :
  returns (get_instructions content) (Some msg) ->
  exists rest language example_blocks,
    returns (_get_example language) example_blocks
    /\ msg = "It looks like you" ++ rest ++ example_blocks.
Proof.
  intros Hmsg.
  pose proof (returns_inj _ _ _ Hmsg (get_instructions_returns content)) as E.
  clear Hmsg.
  assert (Hsplit : exists prose language,
             startswith "It looks like you" prose = true
             /\ msg = prose ++ example_of language).
  { unfold instructions_value in E.
    destruct (find_code_blocks content) as [[|first rest]|]; [| |discriminate].
    - symmetry in E. eauto using no_ticks_value_split.
    - destruct (find bad_tick (first :: rest)) as [block|].
      + injection E as ->. apply bad_ticks_value_split.
      + destruct (bad_lang_value (CodeBlock.content first)) as [m|] eqn:Eb.
        * injection E as ->. eauto using bad_lang_value_split.
        * symmetry in E. eauto using no_lang_value_split. }
  destruct Hsplit as (prose & language & Hopen & ->).
  destruct (opening_kept prose (example_of language) Hopen) as [rest Hrest].
  exists rest, language, (example_of language).
  split; [apply _get_example_returns|exact Hrest].
Qed.

End Shapes.

(** ** What the advisors write to the logger *)

Section Records.

Context {A B : Type}.

Lemma appends_ret (a : A) (P : list string -> Prop) :
  P [] -> appends (ret a) P.
Proof. intros H l. exists []. split; [simpl; now rewrite app_nil_r|exact H]. Qed.

Lemma appends_weaken (m : M A) (P Q : list string -> Prop) :
  (forall records, P records -> Q records) -> appends m P -> appends m Q.
Proof.
  intros HPQ H l. destruct (H l) as (records & E & HP). eauto.
Qed.

(** The records of [bind m k] are those of [m] followed by those of the
    continuation. *)
Lemma appends_bind (m : M A) (k : A -> M B) (a : A)
    (P Q R : list string -> Prop) :
  returns m a ->
  appends m P ->
  appends (k a) Q ->
  (forall t1 t2, P t1 -> Q t2 -> R (t1 ++ t2)%list) ->
  appends (bind m k) R.
Proof.
  intros Hm HP HQ HR l. unfold bind.
  specialize (Hm l). destruct (HP l) as (t1 & E1 & H1).
  destruct (m l) as [o l1]. simpl in Hm, E1. subst o l1.
  destruct (HQ (l ++ t1)%list) as (t2 & E2 & H2).
  exists (t1 ++ t2)%list. split; [now rewrite E2, app_assoc|auto].
Qed.

Lemma never_logs_bind (r : string) (m : M A) (k : A -> M B) (a : A) :
  returns m a -> never_logs r m -> never_logs r (k a) ->
  never_logs r (bind m k).
Proof.
  intros Hm H1 H2. eapply appends_bind; eauto.
  cbv beta. intros t1 t2 Ht1 Ht2 Hin. apply in_app_or in Hin. tauto.
Qed.

(** A record written by the continuation is written by the whole. *)
Lemma logs_bind (r : string) (m : M A) (k : A -> M B) (a : A) (P : list string -> Prop) :
  returns m a -> appends m P -> logs r (k a) -> logs r (bind m k).
Proof.
  intros Hm H1 H2. eapply appends_bind; eauto.
  cbv beta. intros t1 t2 _ Hin. apply in_or_app. now right.
Qed.

End Records.

Lemma appends_trace (msg : string) (P : list string -> Prop) :
  P [msg] -> appends (trace msg) P.
Proof. intros H l. exists [msg]. split; [reflexivity|exact H]. Qed.

Lemma never_logs_ret {A : Type} (r : string) (a : A) : never_logs r (ret a).
Proof. apply appends_ret. intros []. Qed.

Lemma never_logs_trace (r msg : string) : msg <> r -> never_logs r (trace msg).
Proof. intros H. apply appends_trace. intros [E|[]]. now apply H. Qed.

(** A record written first is written by the whole, when the rest only
    appends. *)
Lemma logs_first {B : Type} (r : string) (k : unit -> M B) (P : list string -> Prop) :
  appends (k tt) P -> logs r (trace r ;;; k tt).
Proof.
  intros H. eapply appends_bind; [apply returns_trace| |exact H|].
  - apply (appends_trace r (fun t => In r t)). now left.
  - cbv beta. intros t1 t2 Hin _. apply in_or_app. now left.
Qed.

(** Reading [s[0]] and returning writes nothing, whether or not the
    reading raises. *)
Lemma never_logs_getitem0 {B : Type} (r s : string) (f : string -> B) :
  never_logs r (first <- str_getitem0 s ;; ret (f first)).
Proof.
  intros l. exists []. split; [|intros []].
  destruct s; simpl; now rewrite app_nil_r.
Qed.

(** Steps through a computation that never writes the record at hand. *)
Ltac quiet :=
  repeat (cbv beta iota zeta;
          lazymatch goal with
          | |- never_logs _ (ret _) => apply never_logs_ret
          | |- never_logs _ (trace _) =>
              apply never_logs_trace;
              let H := fresh in
              intros H; cbv delta [no_lang_record fall_through_record] in H;
              cbn in H; discriminate H
          | |- never_logs _ (bind (str_getitem0 _) _) => apply never_logs_getitem0
          | |- never_logs _ (bind _ _) =>
              eapply never_logs_bind; [ solve [ run ] | | ]
          | |- never_logs _ _ => solve [ eauto with returns ]
          end).

Section Laziness.

Context {parsing : Parsing}.

Import Py.

#[local] Hint Resolve _get_example_returns _get_bad_lang_message_returns
  _get_no_lang_message_returns : returns.

Lemma never_logs_example (language : string) :
  never_logs no_lang_record (_get_example language).
Proof.
  unfold _get_example.
  destruct (contains PY_LANG_CODES (lower language)); [|destruct (truthy language)];
    quiet.
Qed.

#[local] Hint Resolve never_logs_example : returns.

Lemma never_logs_bad_lang (content : string) :
  never_logs no_lang_record (_get_bad_lang_message content).
Proof.
  unfold _get_bad_lang_message.
  destruct (parse_bad_language content) as [[language ls tn]|]; [|quiet].
  destruct ls, tn;
    cbn [BadLanguage.leading_spaces BadLanguage.terminal_newline
         BadLanguage.language negb];
    repeat (quiet; cbn [truthy_list List.app]).
Qed.

#[local] Hint Resolve never_logs_bad_lang : returns.

Lemma logs_no_lang (content : string) :
  logs no_lang_record (_get_no_lang_message content).
Proof.
  unfold _get_no_lang_message.
  apply (logs_first no_lang_record
           (fun _ => if is_repl_code content || is_python_code content
                     then example_blocks <- _get_example "python" ;;
                          ret (Some (no_lang_text example_blocks))
                     else trace "Aborting missing language instructions: content is not Python code." ;;;
                          ret None)
           (fun _ => True)).
  destruct (_ || _).
  - eapply appends_bind with (P := fun _ => True) (Q := fun _ => True);
      [apply _get_example_returns| | |auto].
    + eapply appends_weaken; [|apply never_logs_example]. auto.
    + now apply appends_ret.
  - eapply appends_bind with (P := fun _ => True) (Q := fun _ => True);
      [apply returns_trace| | |auto].
    + now apply appends_trace.
    + now apply appends_ret.
Qed.

(** A record written by [m] is written by the whole, when the
    continuation only appends. *)
Lemma logs_then {A B : Type} (r : string) (m : M A) (k : A -> M B) (a : A)
    (P : list string -> Prop) :
  returns m a -> logs r m -> appends (k a) P -> logs r (bind m k).
Proof.
  intros Hm H1 H2. eapply appends_bind; eauto.
  cbv beta. intros t1 t2 Hin _. apply in_or_app. now left.
Qed.

Lemma never_logs_appends {A : Type} (r : string) (m : M A) :
  never_logs r m -> appends m (fun _ => True).
Proof. apply appends_weaken. auto. Qed.

(** Steps over a computation that comes before the one that writes the
    record. *)
Ltac skip_quiet :=
  eapply logs_bind with (P := fun _ => True);
  [ solve [ run ]
  | apply (never_logs_appends no_lang_record); solve [ quiet ]
  | cbv beta iota zeta ].

(** X6. In the fall-through of the dispatcher the missing-language advisor
    is called exactly when the malformed-language advisor has no message
    for the first block: its opening record is written in that case, and
    never when there is a message. *)
Theorem dispatcher_asks_classifier_only_when_needed (content : string)
    (first : CodeBlock.t) (rest : list CodeBlock.t) (bad : option string) :
  find_code_blocks content = Some (first :: rest) ->
  Forall (fun b => CodeBlock.tick b = BACKTICK) (first :: rest) ->
  returns (_get_bad_lang_message (CodeBlock.content first)) bad ->
  (bad <> None -> never_logs no_lang_record (get_instructions content))
  /\ (bad = None -> logs no_lang_record (get_instructions content)).
Proof.
  intros E Hall Hbad.
  pose proof (returns_inj _ _ _ Hbad (_get_bad_lang_message_returns _)) as Eb.
  unfold get_instructions. fold bad_tick. rewrite E.
  cbn [truthy_list negb]. rewrite (find_bad_tick_none _ Hall).
  cbn [list_getitem0].
  split.
  - intros Hsome. destruct bad as [msg|]; [|congruence].
    symmetry in Eb. pose proof (bad_lang_value_truthy _ _ Eb) as Hmsg.
    do 4 (eapply never_logs_bind; [solve [run]|solve [quiet]|cbv beta iota zeta]).
    eapply never_logs_bind; [exact Hbad|apply never_logs_bad_lang|].
    cbn [truthy_opt]. rewrite Hmsg. cbn [negb]. quiet.
  - intros ->.
    do 4 skip_quiet.
    eapply logs_bind with (P := fun _ => True);
      [exact Hbad|apply (never_logs_appends no_lang_record), never_logs_bad_lang|].
    cbn [truthy_opt negb].
    eapply logs_then with (P := fun _ => True);
      [apply _get_no_lang_message_returns|apply logs_no_lang|].
    now apply appends_ret.
Qed.

(** X7. The bad-fence advisor calls the missing-language advisor exactly
    when the malformed-language advisor has no message and the block has no
    language: its opening record is written in that case, and never
    otherwise. *)
Theorem bad_ticks_asks_classifier_only_when_needed (code_block : CodeBlock.t)
    (bad : option string) :
  returns (_get_bad_lang_message (CodeBlock.content code_block)) bad ->
  (bad <> None \/ CodeBlock.language code_block <> "" ->
   never_logs no_lang_record (_get_bad_ticks_message code_block))
  /\ (bad = None -> CodeBlock.language code_block = "" ->
      logs no_lang_record (_get_bad_ticks_message code_block)).
Proof.
  intros Hbad.
  pose proof (returns_inj _ _ _ Hbad (_get_bad_lang_message_returns _)) as Eb.
  unfold _get_bad_ticks_message.
  split.
  - intros Hcase.
    do 2 (eapply never_logs_bind; [solve [run]|solve [quiet]|cbv beta iota zeta]).
    eapply never_logs_bind; [exact Hbad|apply never_logs_bad_lang|].
    cbv beta. destruct bad as [msg|].
    + symmetry in Eb. pose proof (bad_lang_value_truthy _ _ Eb) as Hmsg.
      cbn [truthy_opt]. rewrite Hmsg. cbn [negb andb].
      eapply never_logs_bind; [apply returns_ret|apply never_logs_ret|].
      cbv beta iota zeta. rewrite Hmsg. quiet.
    + destruct Hcase as [Hcase|Hlang]; [congruence|].
      apply truthy_true in Hlang. rewrite Hlang. cbn [truthy_opt negb andb].
      quiet.
  - intros -> Hlang. rewrite Hlang.
    do 2 skip_quiet.
    eapply logs_bind with (P := fun _ => True);
      [exact Hbad|apply (never_logs_appends no_lang_record), never_logs_bad_lang|].
    cbn [truthy_opt truthy negb andb].
    eapply logs_then with (P := fun _ => True);
      [apply _get_no_lang_message_returns|apply logs_no_lang|].
    apply (never_logs_appends no_lang_record).
    destruct (is_repl_code _ || is_python_code _);
      [destruct (truthy (no_lang_text _))|]; quiet.
Qed.

End Laziness.

(** ** The example of the two Python advisors *)

Section PythonExample.

Context {parsing : Parsing}.

Import Py.

(** X8. The missing-fence and the missing-language messages always end
    with a block tagged [python]; its body is the greeting program only
    when [python] is one of [PY_LANG_CODES], and the placeholder [...]
    otherwise. *)
Theorem python_example_needs_python_code (content msg : string) :
  returns (_get_no_ticks_message content) (Some msg)
  \/ returns (_get_no_lang_message content) (Some msg) ->
  exists prose,
    msg = prose ++ "```python" ++ nl
          ++ (if contains PY_LANG_CODES "python"
              then "print('Hello, world!')" else "...")
          ++ "```".
Proof.
  intros [H|H].
  - pose proof (returns_inj _ _ _ H (_get_no_ticks_message_returns content)) as E.
    destruct (is_repl_code content || is_python_code content); [|discriminate].
    injection E as ->. unfold example_of.
    change (lower "python") with "python".
    destruct (contains PY_LANG_CODES "python").
    + exists (no_ticks_text
                ("\`\`\`" ++ _EXAMPLE_PY "python" ++ nl ++ "\`\`\`" ++ nl ++ nl
                 ++ "**This will result in the following:**" ++ nl)).
      reflexivity.
    + exists (no_ticks_text
                ("\`\`\`" ++ ("python" ++ nl ++ "...") ++ nl ++ "\`\`\`" ++ nl ++ nl
                 ++ "**This will result in the following:**" ++ nl)).
      reflexivity.
  - pose proof (returns_inj _ _ _ H (_get_no_lang_message_returns content)) as E.
    destruct (is_repl_code content || is_python_code content); [|discriminate].
    injection E as ->. unfold example_of.
    change (lower "python") with "python".
    destruct (contains PY_LANG_CODES "python").
    + exists (no_lang_text
                ("\`\`\`" ++ _EXAMPLE_PY "python" ++ nl ++ "\`\`\`" ++ nl ++ nl
                 ++ "**This will result in the following:**" ++ nl)).
      reflexivity.
    + exists (no_lang_text
                ("\`\`\`" ++ ("python" ++ nl ++ "...") ++ nl ++ "\`\`\`" ++ nl ++ nl
                 ++ "**This will result in the following:**" ++ nl)).
      reflexivity.
Qed.

End PythonExample.

(** ** The further properties at work on the stand-ins *)

Section Further.

Import Py.


(** X2 on a message whose second block has tildes. *)
Lemma bad_fence_always_reported_witness :
  exists block tail,
    In block [Stub.untagged_block; Stub.tilde_block]
    /\ CodeBlock.tick block <> BACKTICK
    /\ returns
         (get_instructions (parsing := Stub.parsing)
            (Stub.untagged_message ++ nl ++ Stub.tilde_message))
         (Some
            ("It looks like you are trying to paste code into this channel."
             ++ nl ++ nl
             ++ "You seem to be using the wrong symbols to indicate where the code block "
             ++ "should start. The correct symbols would be \`\`\`, not `"
             ++ CodeBlock.tick block ++ CodeBlock.tick block
             ++ CodeBlock.tick block ++ "`." ++ tail)).
Proof.
  apply (bad_fence_always_reported (parsing := Stub.parsing)
           (Stub.untagged_message ++ nl ++ Stub.tilde_message)
           [Stub.untagged_block; Stub.tilde_block]).
  - reflexivity.
  - apply Exists_cons_tl. apply Exists_cons_hd. discriminate.
Defined.

(** X3 on a well-formed block and on plain prose. *)
Lemma get_instructions_silent_iff_witness :
  returns (get_instructions (parsing := Stub.parsing) Stub.ruby_message) None
  /\ returns (get_instructions (parsing := Stub.parsing) "hello") None.
Proof.
  split.
  - apply (proj2 (get_instructions_silent_iff (parsing := Stub.parsing)
                    Stub.ruby_message)).
    left. reflexivity.
  - apply (proj2 (get_instructions_silent_iff (parsing := Stub.parsing) "hello")).
    right; left. split; reflexivity.
Defined.

(** X4 on a block sent alone and the same block sent after a question. *)
Lemma fenced_advice_depends_on_blocks_witness :
  returns (get_instructions (parsing := Quoting.parsing) Quoting.quoted_message)
    (instructions_value (parsing := Quoting.parsing) Quoting.plain_message).
Proof.
  apply (fenced_advice_depends_on_blocks (parsing := Quoting.parsing)
           Quoting.plain_message Quoting.quoted_message Stub.untagged_block []).
  - reflexivity.
  - reflexivity.
  - intros l. reflexivity.
Defined.

(** X5 on the message for a block with tildes. *)
Lemma message_opens_and_ends_alike_witness :
  exists rest language example_blocks,
    returns (_get_example (parsing := Stub.parsing) language) example_blocks
    /\ bad_ticks_value (parsing := Stub.parsing) Stub.tilde_block
       = "It looks like you" ++ rest ++ example_blocks.
Proof.
  apply (message_opens_and_ends_alike (parsing := Stub.parsing) Stub.tilde_message).
  intros l. reflexivity.
Defined.

(** X6 on a block with a malformed tag and on an untagged block. *)
Lemma dispatcher_asks_classifier_only_when_needed_witness :
  never_logs no_lang_record
    (get_instructions (parsing := Stub.parsing) Stub.same_line_message)
  /\ logs no_lang_record
       (get_instructions (parsing := Stub.parsing) Stub.untagged_message).
Proof.
  split.
  - apply (proj1 (dispatcher_asks_classifier_only_when_needed
                    (parsing := Stub.parsing)
                    Stub.same_line_message Stub.same_line_block []
                    (bad_lang_value (parsing := Stub.parsing)
                       (CodeBlock.content Stub.same_line_block))
                    eq_refl ltac:(repeat constructor) (fun l => eq_refl))).
    discriminate.
  - apply (proj2 (dispatcher_asks_classifier_only_when_needed
                    (parsing := Stub.parsing)
                    Stub.untagged_message Stub.untagged_block [] None
                    eq_refl ltac:(repeat constructor) (fun l => eq_refl))).
    reflexivity.
Defined.

(** X7 on a tilde block tagged [python] and on the same block without its
    tag. *)
Lemma bad_ticks_asks_classifier_only_when_needed_witness :
  never_logs no_lang_record
    (_get_bad_ticks_message (parsing := Stub.parsing) Stub.tilde_block)
  /\ logs no_lang_record
       (_get_bad_ticks_message (parsing := Stub.parsing)
          (CodeBlock.mk ("print(1)" ++ nl) "" "~")).
Proof.
  split.
  - apply (proj1 (bad_ticks_asks_classifier_only_when_needed
                    (parsing := Stub.parsing) Stub.tilde_block None
                    (fun l => eq_refl))).
    right. discriminate.
  - apply (proj2 (bad_ticks_asks_classifier_only_when_needed
                    (parsing := Stub.parsing)
                    (CodeBlock.mk ("print(1)" ++ nl) "" "~") None
                    (fun l => eq_refl)));
      reflexivity.
Defined.

(** X8 on a line of Python without any fence. *)
Lemma python_example_needs_python_code_witness :
  exists prose,
    no_ticks_text (example_of (parsing := Stub.parsing) "python")
    = prose ++ "```python" ++ nl ++ "print('Hello, world!')" ++ "```".
Proof.
  apply (python_example_needs_python_code (parsing := Stub.parsing)
           "print('hi')" (no_ticks_text (example_of (parsing := Stub.parsing) "python"))).
  left. intros l. reflexivity.
Defined.

End Further.

(** ** The scanner's contract and the missing-language advisor *)

Section Scanner.

Context {parsing : Parsing}.

Import Py.

#[local] Hint Resolve _get_example_returns _get_bad_lang_message_returns
  _get_no_lang_message_returns _get_no_ticks_message_returns
  _get_bad_ticks_message_returns : returns.

(** Steps over a computation that comes before the one that writes the
    record looked for. *)
Ltac skip_records :=
  eapply logs_bind with (P := fun _ => True);
  [ solve [ run ]
  | apply (never_logs_appends no_lang_record); solve [ quiet ]
  | cbv beta iota zeta ].

Lemma logs_never_logs_absurd {A : Type} (r : string) (m : M A) :
  logs r m -> never_logs r m -> False.
Proof.
  intros Hl Hn. destruct (Hl []) as (t1 & E1 & H1). destruct (Hn []) as (t2 & E2 & H2).
  rewrite E1 in E2. apply app_inv_head in E2. subst t2. auto.
Qed.

Lemma never_logs_fall_through_example (language : string) :
  never_logs fall_through_record (_get_example language).
Proof.
  unfold _get_example.
  destruct (contains PY_LANG_CODES (lower language)); [|destruct (truthy language)];
    quiet.
Qed.

#[local] Hint Resolve never_logs_fall_through_example never_logs_example : returns.

Lemma never_logs_fall_through_bad_lang (content : string) :
  never_logs fall_through_record (_get_bad_lang_message content).
Proof.
  unfold _get_bad_lang_message.
  destruct (parse_bad_language content) as [[language ls tn]|]; [|quiet].
  destruct ls, tn;
    cbn [BadLanguage.leading_spaces BadLanguage.terminal_newline
         BadLanguage.language negb];
    repeat (quiet; cbn [truthy_list List.app]).
Qed.

Lemma never_logs_fall_through_no_lang (content : string) :
  never_logs fall_through_record (_get_no_lang_message content).
Proof.
  unfold _get_no_lang_message.
  destruct (is_repl_code content || is_python_code content); quiet.
Qed.

Lemma never_logs_fall_through_no_ticks (content : string) :
  never_logs fall_through_record (_get_no_ticks_message content).
Proof.
  unfold _get_no_ticks_message.
  destruct (is_repl_code content || is_python_code content); quiet.
Qed.

#[local] Hint Resolve never_logs_fall_through_bad_lang never_logs_bad_lang
  never_logs_fall_through_no_lang never_logs_fall_through_no_ticks : returns.

(** What follows the two secondary checks of [_get_bad_ticks_message]
    writes neither of the two records. *)
Lemma never_logs_bad_ticks_end (r : string) (code_block : CodeBlock.t)
    (addition_msg : option string) :
  r = fall_through_record \/ r = no_lang_record ->
  never_logs r
    (let no_issue : M (option string) :=
       trace "No issues with the language specifier found." ;;;
       example_blocks <- _get_example (CodeBlock.language code_block) ;;
       ret (Some (bad_ticks_instructions code_block ++ example_header
                  ++ example_blocks)) in
     match addition_msg with
     | Some addition_msg =>
         if truthy addition_msg then
           trace "Language specifier issue found; appending additional instructions." ;;;
           let addition_msg := replace_first (nl ++ nl) " " addition_msg in
           first <- str_getitem0 addition_msg ;;
           ret (Some (bad_ticks_instructions code_block ++ nl ++ nl ++ "Furthermore, "
                      ++ lower first ++ slice_from 1 addition_msg))
         else no_issue
     | None => no_issue
     end).
Proof.
  intros [-> | ->]; (destruct addition_msg as [msg|]; [destruct (truthy msg)|]); quiet.
Qed.

Lemma never_logs_fall_through_bad_ticks (code_block : CodeBlock.t) :
  never_logs fall_through_record (_get_bad_ticks_message code_block).
Proof.
  unfold _get_bad_ticks_message.
  do 2 (eapply never_logs_bind; [solve [run]|solve [quiet]|cbv beta iota zeta]).
  eapply never_logs_bind;
    [apply _get_bad_lang_message_returns|apply never_logs_fall_through_bad_lang|].
  cbv beta.
  destruct (negb (truthy_opt (bad_lang_value (CodeBlock.content code_block)))
            && negb (truthy (CodeBlock.language code_block))).
  - eapply never_logs_bind;
      [apply _get_no_lang_message_returns|apply never_logs_fall_through_no_lang|].
    apply never_logs_bad_ticks_end. now left.
  - eapply never_logs_bind; [apply returns_ret|apply never_logs_ret|].
    apply never_logs_bad_ticks_end. now left.
Qed.

(** A block with a language never gets the missing-language advisor from
    the bad-fence advisor. *)
Lemma never_logs_no_lang_tagged (code_block : CodeBlock.t) :
  CodeBlock.language code_block <> "" ->
  never_logs no_lang_record (_get_bad_ticks_message code_block).
Proof.
  intros Hlang. apply truthy_true in Hlang.
  unfold _get_bad_ticks_message.
  do 2 (eapply never_logs_bind; [solve [run]|solve [quiet]|cbv beta iota zeta]).
  eapply never_logs_bind;
    [apply _get_bad_lang_message_returns|apply never_logs_bad_lang|].
  cbv beta. rewrite Hlang. cbn [negb]. rewrite andb_false_r.
  eapply never_logs_bind; [apply returns_ret|apply never_logs_ret|].
  apply never_logs_bad_ticks_end. now right.
Qed.

(** The record of line 169 is written when the fall-through is taken. *)
Lemma logs_fall_through (content : string) (first : CodeBlock.t)
    (rest : list CodeBlock.t) :
  find_code_blocks content = Some (first :: rest) ->
  Forall (fun b => CodeBlock.tick b = BACKTICK) (first :: rest) ->
  logs fall_through_record (get_instructions content).
Proof.
  intros E Hall.
  unfold get_instructions. fold bad_tick. rewrite E.
  cbn [truthy_list negb]. rewrite (find_bad_tick_none _ Hall).
  cbn [list_getitem0].
  do 2 skip_records.
  apply (logs_first fall_through_record
           (fun _ =>
              block <- ret first ;;
              description <- _get_bad_lang_message (CodeBlock.content block) ;;
              description <-
                (if negb (truthy_opt description) then
                   _get_no_lang_message (CodeBlock.content block)
                 else ret description) ;;
              ret description)
           (fun _ => True)).
  apply (never_logs_appends fall_through_record).
  eapply never_logs_bind; [apply returns_ret|apply never_logs_ret|]. cbv beta.
  eapply never_logs_bind;
    [apply _get_bad_lang_message_returns|apply never_logs_fall_through_bad_lang|].
  cbv beta.
  destruct (negb (truthy_opt (bad_lang_value (CodeBlock.content first)))); quiet.
Qed.


End Scanner.

(** ** The contract at work on the stand-in scanner *)

Section ScannerConcrete.

Import Py.

(** The stand-in scanner keeps the contract. *)
Lemma stub_keeps_contract : scanner_contract Stub.parsing.
Proof.
  intros content blocks block H Hin Htick.
  cbn [find_code_blocks Stub.parsing] in H. unfold Stub.scan, Stub.table in H.
  cbn [Stub.lookup] in H.
  repeat match type of H with
         | context [ if ?c then _ else _ ] => destruct c
         end;
    try discriminate H; injection H as <-;
    repeat (destruct Hin as [<-|Hin]; [first [reflexivity|discriminate Htick]|]);
    destruct Hin.
Qed.


End ScannerConcrete.
